(** * APIMessage: the message-payload builder of discord.js

    A shallow embedding of [src/structures/APIMessage.js] and the
    properties of its payload builder, file resolver and splitter,
    with [createWebhook] of [src/structures/TextChannel.js].

    JavaScript values are an inductive type; a thrown exception is the
    [Err] branch of a result; the memoised fields [data] and [files] of
    an instance are optional record fields that the operations return
    updated; a promise is its outcome together with the instant at which
    it settles. Functions of modules that [APIMessage.js] only requires
    ([Util], [MessageEmbed], [BaseMessageComponent], [MessageFlags],
    [DataResolver]) are the fields of a record of collaborators, and so
    are the two conversions the code leaves to the language. *)

From Stdlib Require Import Strings.String Strings.Ascii Strings.Byte Lists.List ZArith Lia Bool Arith.
From Stdlib Require Import DecimalString.
Import ListNotations.
Open Scope string_scope.

(** ** JavaScript values *)

(** A number is integer-valued, [NaN], or some other non-integer (a
    fraction or an infinity, kept by its rendering). *)
Inductive number :=
| Integer (z : Z)
| NaN
| NonInteger (shown : string).

(** The values the builder meets. [VBuffer] is a [Buffer]; [VStream] is
    an object with a [pipe] method, as a readable stream is, and
    possibly a [path]. *)
#[warnings="-register-all"] Inductive value :=
| VUndefined
| VNull
| VBool (b : bool)
| VNum (n : number)
| VStr (s : string)
| VArr (items : list value)
| VObj (props : list (string * value))
| VBuffer (bytes : list byte)
| VStream (path : value).

(** An object's own properties, in insertion order. *)
Definition obj := list (string * value).

Inductive error :=
| RangeError (code : string)
| TypeError
| Failure (reason : string).

Inductive result (A : Type) :=
| OK (a : A)
| Err (e : error).
Arguments OK {A} a.
Arguments Err {A} e.

Definition bind {A B} (r : result A) (k : A -> result B) : result B :=
  match r with
  | OK a => k a
  | Err e => Err e
  end.

Declare Scope result_scope.
Delimit Scope result_scope with result.
Notation "x <- r ;; k" := (bind r (fun x => k))
  (at level 61, r at next level, right associativity) : result_scope.
Open Scope result_scope.

Fixpoint mapM {A B} (f : A -> result B) (l : list A) : result (list B) :=
  match l with
  | [] => OK []
  | a :: r => b <- f a ;; bs <- mapM f r ;; OK (b :: bs)
  end.

Definition from_option {A} (o : option A) (e : error) : result A :=
  match o with
  | Some a => OK a
  | None => Err e
  end.

(** ** Primitive operations of the language *)

Definition nl : string := String (ascii_of_nat 10) "".

Definition isInteger (n : number) : bool :=
  match n with
  | Integer _ => true
  | _ => false
  end.

(** [Boolean(v)] *)
Definition truthy (v : value) : bool :=
  match v with
  | VUndefined | VNull => false
  | VBool b => b
  | VNum (Integer z) => negb (z =? 0)%Z
  | VNum NaN => false
  | VNum (NonInteger _) => true
  | VStr s => negb (s =? "")
  | VArr _ | VObj _ | VBuffer _ | VStream _ => true
  end.

(** [typeof v === 'undefined'] *)
Definition is_undefined (v : value) : bool :=
  match v with
  | VUndefined => true
  | _ => false
  end.

(** [v === false] *)
Definition is_false (v : value) : bool :=
  match v with
  | VBool false => true
  | _ => false
  end.

(** [v == null] *)
Definition nullish (v : value) : bool :=
  match v with
  | VUndefined | VNull => true
  | _ => false
  end.

(** [typeof v === 'object'] *)
Definition typeof_object (v : value) : bool :=
  match v with
  | VNull | VArr _ | VObj _ | VBuffer _ | VStream _ => true
  | _ => false
  end.

(** [Array.isArray(v)] *)
Definition isArray (v : value) : bool :=
  match v with
  | VArr _ => true
  | _ => false
  end.

(** [a || b] *)
Definition or_else (a b : value) : value := if truthy a then a else b.

(** [a ?? b] *)
Definition coalesce (a b : value) : value := if nullish a then b else a.

Fixpoint lookup (k : string) (o : obj) : value :=
  match o with
  | [] => VUndefined
  | (k', v) :: r => if k =? k' then v else lookup k r
  end.

(** [o.k = v] *)
Fixpoint assign (k : string) (v : value) (o : obj) : obj :=
  match o with
  | [] => [(k, v)]
  | (k', v') :: r => if k =? k' then (k, v) :: r else (k', v') :: assign k v r
  end.

(** [delete o.k] *)
Fixpoint delete (k : string) (o : obj) : obj :=
  match o with
  | [] => []
  | (k', v') :: r => if k =? k' then delete k r else (k', v') :: delete k r
  end.

(** [k in o], for own properties *)
Fixpoint has_key (k : string) (o : obj) : bool :=
  match o with
  | [] => false
  | (k', _) :: r => (k =? k') || has_key k r
  end.

(** [v.k], for the property names the builder reads ([files],
    [messageReference], [failIfNotExists], [attachment], [name],
    [path]): reading from [undefined] or [null] throws; a stream has a
    [path]; primitives, arrays and buffers have none of them. *)
Definition get (v : value) (k : string) : result value :=
  match v with
  | VUndefined | VNull => Err TypeError
  | VObj o => OK (lookup k o)
  | VStream p => OK (if k =? "path" then p else VUndefined)
  | _ => OK VUndefined
  end.

Fixpoint chars (s : string) : list value :=
  match s with
  | EmptyString => []
  | String c r => VStr (String c "") :: chars r
  end.

Definition byte_value (b : byte) : value := VNum (Integer (Z.of_N (Byte.to_N b))).

(** The elements a spread [...v] into an array pushes: arrays, strings
    and buffers iterate, anything else is not iterable. *)
Definition iterate (v : value) : result (list value) :=
  match v with
  | VArr l => OK l
  | VStr s => OK (chars s)
  | VBuffer bs => OK (map byte_value bs)
  | _ => Err TypeError
  end.

Definition index_key (i : nat) : string := NilZero.string_of_uint (Nat.to_uint i).

Definition indexed (l : list value) : obj :=
  combine (map index_key (seq 0 (List.length l))) l.

(** The own enumerable properties a spread [{...v}] into an object
    copies. *)
Definition spread_props (v : value) : obj :=
  match v with
  | VObj o => o
  | VArr l => indexed l
  | VStr s => indexed (chars s)
  | VBuffer bs => indexed (map byte_value bs)
  | VStream p => [("path", p)]
  | _ => []
  end.

(** ** The data model *)

(** MessageOptions / WebhookMessageOptions; an absent option reads as
    [undefined]. *)
Record Options := {
  content : value;
  tts : value;
  nonce : value;
  embed : value;
  embeds : value;
  components : value;
  username : value;
  avatarURL : value;
  flags : value;
  ephemeral : value;
  allowedMentions : value;
  reply : value;
  files : value;
  attachments : value;
  o_split : value;   (* [options.split] *)
  code : value
}.

(** The payload [this.data]. *)
Record Data := {
  d_content : value;
  d_tts : value;
  d_nonce : value;
  d_embed : value;
  d_embeds : value;
  d_components : value;
  d_username : value;
  d_avatar_url : value;
  d_allowed_mentions : value;
  d_flags : value;
  d_message_reference : value;
  d_attachments : value
}.

(** The classes the classifier tests the target against. *)
Inductive Class :=
| Webhook | WebhookClient | User | GuildMember | Message
| Interaction | InteractionWebhook.

Record MessageManager := { resolveID : value -> value }.

(** What the builder reads from its target; [None] is a path that ends
    in [undefined] before its last property, so that reading it
    throws. *)
Record Target := {
  instance_of : Class -> bool;
  target_name : value;
  target_flags_bitfield : option value;
  target_client_allowedMentions : option value;
  target_messages : option MessageManager;
  target_channel_messages : option MessageManager
}.

(** What [resolveFile] returns. *)
Record ResolvedFile := {
  f_attachment : value;
  f_name : value;
  f_file : value
}.

(** A promise: when it settles and how. *)
Record Promise (A : Type) := {
  settles_at : nat;
  outcome : result A
}.
Arguments settles_at {A} p.
Arguments outcome {A} p.
Arguments Build_Promise {A} settles_at outcome.

Record Instance := {
  target : Target;
  options : Options;
  data : option Data;
  i_files : option (list ResolvedFile)
}.

(** Functions and constants of the modules [APIMessage.js] requires,
    and the conversions of values it leaves to the language. *)
Record Deps := {
  (** [Util.verifyString(data, RangeError, code, allowEmpty)] *)
  verifyString : value -> string -> bool -> result string;
  (** [Util.cleanCodeBlockContent(text)] *)
  cleanCodeBlockContent : string -> string;
  (** [Util.splitMessage(text, options)] *)
  splitMessage : string -> obj -> result (list string);
  (** the string a template literal makes of a value that is not a string *)
  ToString : value -> string;
  (** the byte a typed array stores for a value *)
  ToUint8 : value -> byte;
  (** [new MessageEmbed(e).toJSON()] *)
  MessageEmbed_toJSON : value -> result value;
  (** [BaseMessageComponent.create(c).toJSON()] *)
  Component_toJSON : value -> result value;
  (** [MessageComponentTypes.ACTION_ROW] *)
  ACTION_ROW : value;
  (** [new MessageFlags(bits).bitfield] *)
  MessageFlags_bitfield : value -> result value;
  (** [MessageFlags.FLAGS.EPHEMERAL] *)
  EPHEMERAL : value;
  (** [Util.cloneObject(o)] *)
  cloneObject : value -> result obj;
  (** [Util.basename(path)] *)
  basename : value -> result string;
  (** [DataResolver.resolveFile(resource)] *)
  DataResolver_resolveFile : value -> Promise value
}.

(** ** The builder *)

Module APIMessage.

Section Builder.

Variable E : Deps.

(** [new APIMessage(target, options)] *)
Definition new (t : Target) (o : Options) : Instance :=
  {| target := t; options := o; data := None; i_files := None |}.

Definition isWebhook (t : Target) : bool :=
  instance_of t Webhook || instance_of t WebhookClient.

Definition isUser (t : Target) : bool :=
  instance_of t User || instance_of t GuildMember.

Definition isMessage (t : Target) : bool :=
  instance_of t Message.

Definition isInteraction (t : Target) : bool :=
  instance_of t Interaction || instance_of t InteractionWebhook.

(** A template literal's [${v}]. *)
Definition to_string (v : value) : string :=
  match v with
  | VStr s => s
  | _ => ToString E v
  end.

Definition isSplit (o : Options) : bool :=
  negb (is_undefined (o_split o)) && negb (is_false (o_split o)).

Definition isCode (o : Options) : bool :=
  negb (is_undefined (code o)) && negb (is_false (code o)).

Definition codeName (o : Options) : string :=
  match code o with
  | VStr c => c
  | _ => ""
  end.

Definition fence_open (tag : string) : string := "```" ++ tag ++ nl.

Definition fence_close : string := nl ++ "```".

(** The two assignments to [splitOptions.prepend] and
    [splitOptions.append]. *)
Definition inject_fences (tag : string) (splitOptions : obj) : obj :=
  let splitOptions :=
    assign "prepend"
      (VStr (to_string (or_else (lookup "prepend" splitOptions) (VStr "")) ++ fence_open tag))
      splitOptions in
  assign "append"
    (VStr (fence_close ++ to_string (or_else (lookup "append" splitOptions) (VStr ""))))
    splitOptions.

(** [splitOptions] is [undefined] when the content is not split, and
    then it is not read: it is the empty object here. *)
Definition makeContent (o : Options) : result value :=
  content <- match content o with
             | VNull => OK (VStr "")
             | VUndefined => OK VUndefined
             | c => s <- verifyString E c "MESSAGE_CONTENT_TYPE" false ;; OK (VStr s)
             end ;;
  match content with
  | VStr content =>
      let splitOptions := if isSplit o then spread_props (o_split o) else [] in
      if truthy (VStr content) then
        let '(content, splitOptions) :=
          if isCode o then
            (fence_open (codeName o) ++ cleanCodeBlockContent E content ++ fence_close,
             if isSplit o then inject_fences (codeName o) splitOptions else splitOptions)
          else (content, splitOptions) in
        if isSplit o then
          chunks <- splitMessage E content splitOptions ;;
          OK (VArr (map VStr chunks))
        else OK (VStr content)
      else OK (VStr content)
  | content => OK content
  end.

(** The nonce is an integer or a string. *)
Definition bad_nonce (n : value) : bool :=
  match n with
  | VNum x => negb (isInteger x)
  | VStr _ => false
  | _ => true
  end.

(** The embed-like values of the options, by dialect. *)
Definition embedLikes (webhookLike : bool) (o : Options) : result (list value) :=
  if webhookLike then
    if truthy (embeds o) then iterate (embeds o) else OK []
  else if truthy (embed o) then OK [embed o]
  else OK [].

(** The callback of [components.map]. *)
Definition make_component (c : value) : result value :=
  Component_toJSON E
    (if isArray c then VObj [("type", ACTION_ROW E); ("components", c)] else c).

(** [this.options.components?.map(...)]: arrays have a [map], and so
    have buffers, which store bytes; no other value has one. *)
Definition make_components (o : Options) : result value :=
  match components o with
  | VUndefined | VNull => OK VUndefined
  | VArr cs => js <- mapM make_component cs ;; OK (VArr js)
  | VBuffer bs =>
      js <- mapM make_component (map byte_value bs) ;;
      OK (VBuffer (map (ToUint8 E) js))
  | _ => Err TypeError
  end.

Definition make_flags (t : Target) (o : Options) : result value :=
  if isMessage t then
    if negb (nullish (flags o)) then MessageFlags_bitfield E (flags o)
    else from_option (target_flags_bitfield t) TypeError
  else if isInteraction t && truthy (ephemeral o) then OK (EPHEMERAL E)
  else OK VUndefined.

(** The explicit option, else the client's default. *)
Definition select_allowedMentions (t : Target) (o : Options) : result value :=
  if is_undefined (allowedMentions o)
  then from_option (target_client_allowedMentions t) TypeError
  else OK (allowedMentions o).

(** [o.replied_user = o.repliedUser; delete o.repliedUser] *)
Definition renamed (o : obj) : obj :=
  delete "repliedUser" (assign "replied_user" (lookup "repliedUser" o) o).

(** Clone, then rename [repliedUser] to [replied_user]. *)
Definition rename_repliedUser (allowedMentions : value) : result value :=
  if truthy allowedMentions then
    c <- cloneObject E allowedMentions ;;
    OK (VObj (renamed c))
  else OK allowedMentions.

(** The message collection a reply is resolved in. *)
Definition reply_collection (t : Target) : option MessageManager :=
  if isMessage t then target_channel_messages t else target_messages t.

Definition make_message_reference (t : Target) (o : Options) : result value :=
  if typeof_object (reply o) then
    messages <- from_option (reply_collection t) TypeError ;;
    reference <- get (reply o) "messageReference" ;;
    let message_id := resolveID messages reference in
    if truthy message_id then
      failIfNotExists <- get (reply o) "failIfNotExists" ;;
      OK (VObj [("message_id", message_id);
                ("fail_if_not_exists", coalesce failIfNotExists (VBool true))])
    else OK VUndefined
  else OK VUndefined.

(** The payload of a target and options: the body of [resolveData]
    after its memoisation test. *)
Definition build_data (t : Target) (o : Options) : result Data :=
  let isInteraction := isInteraction t in
  let isWebhook := isWebhook t in
  let isWebhookLike := isInteraction || isWebhook in
  content <- makeContent o ;;
  let tts := VBool (truthy (tts o)) in
  nonce <- (if is_undefined (nonce o) then OK VUndefined
            else if bad_nonce (nonce o) then Err (RangeError "MESSAGE_NONCE_TYPE")
            else OK (nonce o)) ;;
  embedLikes <- embedLikes isWebhookLike o ;;
  embeds <- mapM (MessageEmbed_toJSON E) embedLikes ;;
  components <- make_components o ;;
  let username := if isWebhook then or_else (username o) (target_name t) else VUndefined in
  let avatarURL := if isWebhook && truthy (avatarURL o) then avatarURL o else VUndefined in
  flags <- make_flags t o ;;
  allowedMentions <- select_allowedMentions t o ;;
  allowedMentions <- rename_repliedUser allowedMentions ;;
  message_reference <- make_message_reference t o ;;
  OK {| d_content := content;
        d_tts := tts;
        d_nonce := nonce;
        d_embed := if negb isWebhookLike
                   then match embed o with
                        | VNull => VNull
                        | _ => nth 0 embeds VUndefined
                        end
                   else VUndefined;
        d_embeds := if isWebhookLike then VArr embeds else VUndefined;
        d_components := components;
        d_username := username;
        d_avatar_url := avatarURL;
        d_allowed_mentions :=
          if is_undefined content && is_undefined message_reference
          then VUndefined else allowedMentions;
        d_flags := flags;
        d_message_reference := message_reference;
        d_attachments := attachments o |}.

Definition set_data (i : Instance) (d : Data) : Instance :=
  {| target := target i; options := options i; data := Some d; i_files := i_files i |}.

Definition resolveData (i : Instance) : result Instance :=
  match data i with
  | Some _ => OK i
  | None => d <- build_data (target i) (options i) ;; OK (set_data i d)
  end.

(** *** Files *)

Definition findName (thing : value) : result value :=
  match thing with
  | VStr _ => s <- basename E thing ;; OK (VStr s)
  | _ =>
      path <- get thing "path" ;;
      if truthy path then s <- basename E path ;; OK (VStr s)
      else OK (VStr "file.jpg")
  end.

(** A string, a Buffer, or something with a [pipe] method. *)
Definition ownAttachment (fileLike : value) : result bool :=
  match fileLike with
  | VStr _ | VBuffer _ => OK true
  | VUndefined | VNull => Err TypeError
  | VStream _ => OK true
  | _ => OK false
  end.

(** What [resolveFile] does before it awaits the resource. *)
Definition name_file (fileLike : value) : result (value * value) :=
  own <- ownAttachment fileLike ;;
  if (own : bool) then
    name <- findName fileLike ;; OK (fileLike, name)
  else
    attachment <- get fileLike "attachment" ;;
    name <- get fileLike "name" ;;
    name <- (if truthy name then OK name else findName attachment) ;;
    OK (attachment, name).

(** A promise already settled. *)
Definition settled {A} (r : result A) : Promise A :=
  {| settles_at := 0; outcome := r |}.

(** [p.then(f)] for a synchronous [f]. *)
Definition then_ {A B} (p : Promise A) (f : A -> result B) : Promise B :=
  {| settles_at := settles_at p; outcome := bind (outcome p) f |}.

Definition resolveFile (fileLike : value) : Promise ResolvedFile :=
  match name_file fileLike with
  | Err e => settled (Err e)
  | OK (attachment, name) =>
      then_ (DataResolver_resolveFile E attachment)
        (fun resource =>
           OK {| f_attachment := attachment; f_name := name; f_file := resource |})
  end.

(** The rejection that comes first in time, the earlier promise of the
    list winning a tie. *)
Fixpoint first_rejection {A} (ps : list (Promise A)) : option (nat * error) :=
  match ps with
  | [] => None
  | p :: r =>
      match outcome p, first_rejection r with
      | Err e, Some (t', e') =>
          if (settles_at p <=? t')%nat then Some (settles_at p, e) else Some (t', e')
      | Err e, None => Some (settles_at p, e)
      | OK _, later => later
      end
  end.

Definition fulfilled_values {A} (ps : list (Promise A)) : list A :=
  flat_map (fun p => match outcome p with OK a => [a] | Err _ => [] end) ps.

Definition last_settlement {A} (ps : list (Promise A)) : nat :=
  fold_right Nat.max 0 (map settles_at ps).

(** [Promise.all(ps)]: the values in the order of [ps] once every
    promise is fulfilled, or the first rejection as soon as it
    happens. *)
Definition Promise_all {A} (ps : list (Promise A)) : Promise (list A) :=
  match first_rejection ps with
  | Some (t, e) => {| settles_at := t; outcome := Err e |}
  | None => {| settles_at := last_settlement ps; outcome := OK (fulfilled_values ps) |}
  end.

(** The files an embed-like value carries. *)
Definition embed_files (embed : value) : result (list value) :=
  fs <- get embed "files" ;;
  if truthy fs then iterate fs else OK [].

Fixpoint collect_embed_files (embedLikes : list value) : result (list value) :=
  match embedLikes with
  | [] => OK []
  | embed :: r =>
      fs <- embed_files embed ;;
      rest <- collect_embed_files r ;;
      OK (fs ++ rest)%list
  end.

Definition fileLikes (t : Target) (o : Options) : result (list value) :=
  embedLikes <- embedLikes (isInteraction t || isWebhook t) o ;;
  own <- (if truthy (files o) then iterate (files o) else OK []) ;;
  carried <- collect_embed_files embedLikes ;;
  OK (own ++ carried)%list.

Definition set_files (i : Instance) (fs : list ResolvedFile) : Instance :=
  {| target := target i; options := options i; data := data i; i_files := Some fs |}.

Definition resolveFiles (i : Instance) : Promise Instance :=
  match i_files i with
  | Some _ => settled (OK i)
  | None =>
      match fileLikes (target i) (options i) with
      | Err e => settled (Err e)
      | OK fileLikes =>
          then_ (Promise_all (map resolveFile fileLikes))
            (fun fs => OK (set_files i fs))
      end
  end.

(** *** Splitting *)

Definition set_content (o : Options) (c : value) : Options :=
  {| content := c; tts := tts o; nonce := nonce o; embed := embed o;
     embeds := embeds o; components := components o; username := username o;
     avatarURL := avatarURL o; flags := flags o; ephemeral := ephemeral o;
     allowedMentions := allowedMentions o; reply := reply o; files := files o;
     attachments := attachments o; o_split := o_split o; code := code o |}.

Definition set_d_content (d : Data) (c : value) : Data :=
  {| d_content := c; d_tts := d_tts d; d_nonce := d_nonce d; d_embed := d_embed d;
     d_embeds := d_embeds d; d_components := d_components d;
     d_username := d_username d; d_avatar_url := d_avatar_url d;
     d_allowed_mentions := d_allowed_mentions d; d_flags := d_flags d;
     d_message_reference := d_message_reference d;
     d_attachments := d_attachments d |}.

(** [{ content, tts, allowedMentions }] *)
Definition minimal_options (c tts allowedMentions : value) : Options :=
  {| content := c; tts := tts; nonce := VUndefined; embed := VUndefined;
     embeds := VUndefined; components := VUndefined; username := VUndefined;
     avatarURL := VUndefined; flags := VUndefined; ephemeral := VUndefined;
     allowedMentions := allowedMentions; reply := VUndefined; files := VUndefined;
     attachments := VUndefined; o_split := VUndefined; code := VUndefined |}.

(** [{ content, tts, allowed_mentions }] *)
Definition minimal_data (c tts allowed_mentions : value) : Data :=
  {| d_content := c; d_tts := tts; d_nonce := VUndefined; d_embed := VUndefined;
     d_embeds := VUndefined; d_components := VUndefined; d_username := VUndefined;
     d_avatar_url := VUndefined; d_allowed_mentions := allowed_mentions;
     d_flags := VUndefined; d_message_reference := VUndefined;
     d_attachments := VUndefined |}.

(** The instance the loop of [split] pushes at index [n]. *)
Definition chunk_instance (this : Instance) (d : Data) (chunks : list value) (n : nat)
  : Instance :=
  let c := nth n chunks VUndefined in
  if (n =? List.length chunks - 1)%nat then
    {| target := target this;
       options := set_content (options this) c;
       data := Some (set_d_content d c);
       i_files := None |}
  else
    {| target := target this;
       options := minimal_options c (d_tts d) (allowedMentions (options this));
       data := Some (minimal_data c (d_tts d) (allowedMentions (options this)));
       i_files := None |}.

(** [split()] returns its array; the instance it has possibly filled
    in comes first. *)
Definition split (i : Instance) : result (Instance * list Instance) :=
  this <- (match data i with
           | None => resolveData i
           | Some _ => OK i
           end) ;;
  d <- from_option (data this) TypeError ;;
  match d_content d with
  | VArr chunks =>
      OK (this, map (chunk_instance this d chunks) (seq 0 (List.length chunks)))
  | _ => OK (this, [this])
  end.

(** *** Notions used to state the properties *)

(** The embed of a single-embed dialect: [null] stays [null], another
    falsy option gives [undefined], and a truthy one its wire form. *)
Definition single_embed (o : Options) (e : value) : Prop :=
  (embed o = VNull /\ e = VNull) \/
  (embed o <> VNull /\ truthy (embed o) = false /\ e = VUndefined) \/
  (truthy (embed o) = true /\ MessageEmbed_toJSON E (embed o) = OK e).

Definition set_ephemeral (o : Options) (e : value) : Options :=
  {| content := content o; tts := tts o; nonce := nonce o; embed := embed o;
     embeds := embeds o; components := components o; username := username o;
     avatarURL := avatarURL o; flags := flags o; ephemeral := e;
     allowedMentions := allowedMentions o; reply := reply o; files := files o;
     attachments := attachments o; o_split := o_split o; code := code o |}.

Definition set_reply (o : Options) (r : value) : Options :=
  {| content := content o; tts := tts o; nonce := nonce o; embed := embed o;
     embeds := embeds o; components := components o; username := username o;
     avatarURL := avatarURL o; flags := flags o; ephemeral := ephemeral o;
     allowedMentions := allowedMentions o; reply := r; files := files o;
     attachments := attachments o; o_split := o_split o; code := code o |}.

(** The same instance, bound to another target. *)
Definition retarget (t : Target) (i : Instance) : Instance :=
  {| target := t; options := options i; data := data i; i_files := i_files i |}.

Definition map_result {A B} (f : A -> B) (r : result A) : result B :=
  match r with
  | OK a => OK (f a)
  | Err e => Err e
  end.

(** The target with the classes of a plain channel, that is none of
    those tested, and everything else as it is. *)
Definition as_channel (t : Target) : Target :=
  {| instance_of := fun _ => false;
     target_name := target_name t;
     target_flags_bitfield := target_flags_bitfield t;
     target_client_allowedMentions := target_client_allowedMentions t;
     target_messages := target_messages t;
     target_channel_messages := target_channel_messages t |}.

(** Two targets that the three facets the builder tests, and the
    properties it reads, do not tell apart. *)
Definition alike (t t' : Target) : Prop :=
  isWebhook t = isWebhook t' /\ isMessage t = isMessage t' /\
  isInteraction t = isInteraction t' /\
  target_name t = target_name t' /\
  target_flags_bitfield t = target_flags_bitfield t' /\
  target_client_allowedMentions t = target_client_allowedMentions t' /\
  target_messages t = target_messages t' /\
  target_channel_messages t = target_channel_messages t'.



(** *** Creation *)

(** [v === null] *)
Definition is_null (v : value) : bool :=
  match v with
  | VNull => true
  | _ => false
  end.

(** [{ ...a, ...b }], given the own properties of [a] and of [b]: those
    of [b] are assigned in their order. *)
Definition spread_over (a b : obj) : obj :=
  fold_left (fun o kv => assign (fst kv) (snd kv) o) b a.

(** The options the builder reads from an options object. *)
Definition options_of_object (o : obj) : Options :=
  {| content := lookup "content" o; tts := lookup "tts" o;
     nonce := lookup "nonce" o; embed := lookup "embed" o;
     embeds := lookup "embeds" o; components := lookup "components" o;
     username := lookup "username" o; avatarURL := lookup "avatarURL" o;
     flags := lookup "flags" o; ephemeral := lookup "ephemeral" o;
     allowedMentions := lookup "allowedMentions" o;
     reply := lookup "reply" o; files := lookup "files" o;
     attachments := lookup "attachments" o; o_split := lookup "split" o;
     code := lookup "code" o |}.

(** The object [create] passes to the constructor; an [extra] left
    out is the empty object. *)
Definition created_options (options extra : value) : obj :=
  if negb (typeof_object options) || is_null options
  then spread_over [("content", options)] (spread_props extra)
  else spread_over (spread_over [] (spread_props options)) (spread_props extra).

(** [APIMessage.create(target, options, extra)] *)
Definition create (t : Target) (options extra : value) : Instance :=
  new t (options_of_object (created_options options extra)).

(** *** More notions used to state the properties *)

Definition set_embeds (o : Options) (e : value) : Options :=
  {| content := content o; tts := tts o; nonce := nonce o; embed := embed o;
     embeds := e; components := components o; username := username o;
     avatarURL := avatarURL o; flags := flags o; ephemeral := ephemeral o;
     allowedMentions := allowedMentions o; reply := reply o; files := files o;
     attachments := attachments o; o_split := o_split o; code := code o |}.

Definition set_embed (o : Options) (e : value) : Options :=
  {| content := content o; tts := tts o; nonce := nonce o; embed := e;
     embeds := embeds o; components := components o; username := username o;
     avatarURL := avatarURL o; flags := flags o; ephemeral := ephemeral o;
     allowedMentions := allowedMentions o; reply := reply o; files := files o;
     attachments := attachments o; o_split := o_split o; code := code o |}.

Definition set_flags (o : Options) (f : value) : Options :=
  {| content := content o; tts := tts o; nonce := nonce o; embed := embed o;
     embeds := embeds o; components := components o; username := username o;
     avatarURL := avatarURL o; flags := f; ephemeral := ephemeral o;
     allowedMentions := allowedMentions o; reply := reply o; files := files o;
     attachments := attachments o; o_split := o_split o; code := code o |}.

Definition set_webhook_identity (o : Options) (name avatar : value) : Options :=
  {| content := content o; tts := tts o; nonce := nonce o; embed := embed o;
     embeds := embeds o; components := components o; username := name;
     avatarURL := avatar; flags := flags o; ephemeral := ephemeral o;
     allowedMentions := allowedMentions o; reply := reply o; files := files o;
     attachments := attachments o; o_split := o_split o; code := code o |}.

Definition set_nonce (o : Options) (n : value) : Options :=
  {| content := content o; tts := tts o; nonce := n; embed := embed o;
     embeds := embeds o; components := components o; username := username o;
     avatarURL := avatarURL o; flags := flags o; ephemeral := ephemeral o;
     allowedMentions := allowedMentions o; reply := reply o; files := files o;
     attachments := attachments o; o_split := o_split o; code := code o |}.

(** [typeof v === 'string'] *)
Definition is_string (v : value) : bool :=
  match v with
  | VStr _ => true
  | _ => false
  end.

(** [name] is the base name of [thing] if that is a string, else the
    base name of its truthy [path], else [file.jpg]. *)
Definition named_after (thing name : value) : Prop :=
  (is_string thing = true /\ exists b, basename E thing = OK b /\ name = VStr b) \/
  (is_string thing = false /\ exists path,
     get thing "path" = OK path /\
     if truthy path then exists b, basename E path = OK b /\ name = VStr b
     else name = VStr "file.jpg").

(** The content a split instance carries. *)
Definition content_of (i : Instance) : value :=
  match data i with
  | Some d => d_content d
  | None => VUndefined
  end.

End Builder.

End APIMessage.

(** ** [Util.splitMessage], from its description *)

Module Util.

Fixpoint take (n : nat) (s : string) : string :=
  match n, s with
  | S m, String c r => String c (take m r)
  | _, _ => ""
  end.

Fixpoint drop (n : nat) (s : string) : string :=
  match n, s with
  | S m, String _ r => drop m r
  | _, _ => s
  end.

Definition starts_with (a s : string) : Prop := exists x, s = a ++ x.

Definition ends_with (a s : string) : Prop := exists x, s = x ++ a.

(** Modelled from the spec: the split configuration read by
    [Util.splitMessage] ([src/util/Util.js] is not part of the
    sources): the chunk limit, the boundary [char], and the [prepend]
    and [append] of section 4.2. *)
Record SplitOptions := {
  maxLength : nat;
  char : string;
  prepend : string;
  append : string
}.

Section SplitMessage.

(** The service limit, the default of [maxLength]. *)
Variable service_limit : nat.

(** Modelled from the spec: how [Util.splitMessage] reads its
    configuration object: [maxLength] defaults to the service limit,
    the boundary to a newline, [prepend] and [append] to the empty
    string; a field of another type is outside [SplitConfig]. *)
Definition read_options (o : obj) : option SplitOptions :=
  match lookup "maxLength" o, lookup "char" o,
        lookup "prepend" o, lookup "append" o with
  | (VUndefined | VNum (Integer _)) as m, (VUndefined | VStr _) as c,
    (VUndefined | VStr _) as p, (VUndefined | VStr _) as a =>
      Some {| maxLength := match m with VNum (Integer z) => Z.to_nat z | _ => service_limit end;
              char := match c with VStr c => c | _ => nl end;
              prepend := match p with VStr p => p | _ => "" end;
              append := match a with VStr a => a | _ => "" end |}
  | _, _, _, _ => None
  end.

Definition pre (cfg : SplitOptions) (first : bool) : string :=
  if first then "" else prepend cfg.

(** Modelled from the spec: the result [Util.splitMessage] is
    described to have (section 4.2). The text is cut into pieces, at a
    boundary (which a cut may drop) or anywhere; every chunk but the
    first is its piece prefixed by [prepend], every chunk but the last
    is its piece suffixed by [append], and no chunk is longer than
    [maxLength]. *)
Inductive Chunks (cfg : SplitOptions) : bool -> string -> list string -> Prop :=
| Chunks_whole first text :
    String.length (pre cfg first ++ text) <= maxLength cfg ->
    Chunks cfg first text [pre cfg first ++ text]
| Chunks_cut first piece boundary rest chunks :
    boundary = "" \/ boundary = char cfg ->
    String.length (pre cfg first ++ piece ++ append cfg) <= maxLength cfg ->
    Chunks cfg false rest chunks ->
    Chunks cfg first (piece ++ boundary ++ rest)
      ((pre cfg first ++ piece ++ append cfg) :: chunks).

(** Modelled from the spec: what is required of an implementation of
    [Util.splitMessage]. *)
Definition meets_split_spec (f : string -> obj -> result (list string)) : Prop :=
  forall text o cfg chunks,
    read_options o = Some cfg ->
    f text o = OK chunks ->
    Chunks cfg true text chunks.

(** Modelled from the spec: where [Util.splitMessage] looks for a
    boundary to cut at (section 4.2), the last position, at most
    [limit], at which [boundary] starts in [text]. *)
Fixpoint boundary_before (boundary text : string) (limit : nat) : option nat :=
  match limit with
  | 0 => if prefix boundary text then Some 0 else None
  | S m =>
      if prefix boundary (drop limit text) then Some limit
      else boundary_before boundary text m
  end.

(** Modelled from the spec: where [Util.splitMessage] cuts a text
    that does not fit (section 4.2), by preference at the last
    boundary that leaves a piece of at most [room] characters, else
    after [room] characters. *)
Definition cut (cfg : SplitOptions) (text : string) (room : nat) : string * string :=
  match boundary_before (char cfg) text room with
  | Some p => (take p text, drop (p + String.length (char cfg)) text)
  | None => (take room text, drop room text)
  end.

(** Modelled from the spec: the error of [Util.splitMessage]
    (section 7). *)
Definition SplitImpossible : error := Failure "SplitImpossible".

(** Modelled from the spec: the chunks of [Util.splitMessage]
    (section 4.2), the first of them if [first]; a text that fits is
    the last chunk, another is cut, its piece put between [prepend]
    and [append], and the rest chunked in turn. *)
Fixpoint chunk (cfg : SplitOptions) (fuel : nat) (first : bool) (text : string)
  : result (list string) :=
  if (String.length (pre cfg first ++ text) <=? maxLength cfg)%nat
  then OK [pre cfg first ++ text]
  else
    match maxLength cfg - String.length (pre cfg first) - String.length (append cfg), fuel with
    | 0, _ => Err SplitImpossible
    | _, 0 => Err SplitImpossible
    | S room, S fuel =>
        let '(piece, rest) := cut cfg text (S room) in
        chunks <- chunk cfg fuel false rest ;;
        OK ((pre cfg first ++ piece ++ append cfg) :: chunks)
    end.

(** Modelled from the spec: [Util.splitMessage(text, options)]
    (section 4.2): chunks of at most [maxLength] characters, cut by
    preference at the boundary, else anywhere; [SplitImpossible] when
    [prepend] and [append] leave no room for a piece. Each cut shortens
    the text, so its length is fuel enough. *)
Definition splitMessage (text : string) (o : obj) : result (list string) :=
  match read_options o with
  | Some cfg => chunk cfg (String.length text) true text
  | None => Err TypeError
  end.

End SplitMessage.

End Util.

(** ** A concrete setting for the examples *)

Module Sample.

Import APIMessage.

Fixpoint has_slash (s : string) : bool :=
  match s with
  | EmptyString => false
  | String c r => (c =? "/")%char || has_slash r
  end.

(** The part of a path after its last slash. *)
Fixpoint last_segment (s : string) : string :=
  match s with
  | EmptyString => ""
  | String c r =>
      if has_slash r then last_segment r
      else if (c =? "/")%char then r else s
  end.

(** A loader that takes as long as the resource's name is long and
    finds no resource whose name starts with [missing]. *)
Definition load (resource : value) : Promise value :=
  match resource with
  | VStr s =>
      {| settles_at := String.length s;
         outcome := if prefix "missing" s then Err (Failure "ENOENT")
                    else OK (VBuffer []) |}
  | VBuffer bs => {| settles_at := 0; outcome := OK (VBuffer bs) |}
  | _ => {| settles_at := 0; outcome := Err TypeError |}
  end.

(** Modelled from the spec: collaborators to run the examples with,
    the modules [APIMessage.js] requires not being part of the
    sources. The content must be a string (section 4.2), and not the
    empty one, empty strings not being allowed by the call; text
    without a fence needs no cleaning; the normalisers leave a wire
    form as it is (section 6); a flag set is an integer; a path
    names its last segment (section 4.3). *)
Definition E0 : Deps :=
  {| verifyString := fun data code allowEmpty =>
       match data with
       | VStr s => if allowEmpty || negb (s =? "") then OK s else Err (RangeError code)
       | _ => Err (RangeError code)
       end;
     cleanCodeBlockContent := fun text => text;
     splitMessage := Util.splitMessage 2000;
     ToString := fun _ => "[object Object]";
     ToUint8 := fun _ => x00;
     MessageEmbed_toJSON := fun e => OK e;
     Component_toJSON := fun c => OK c;
     ACTION_ROW := VNum (Integer 1);
     MessageFlags_bitfield := fun bits =>
       match bits with
       | VNum (Integer z) => OK bits
       | _ => Err (RangeError "BITFIELD_INVALID")
       end;
     EPHEMERAL := VNum (Integer 64);
     cloneObject := fun v =>
       match v with
       | VObj o => OK o
       | _ => Err TypeError
       end;
     basename := fun path =>
       match path with
       | VStr s => OK (last_segment s)
       | _ => Err TypeError
       end;
     DataResolver_resolveFile := load |}.

(** [{}] *)
Definition no_options : Options :=
  {| content := VUndefined; tts := VUndefined; nonce := VUndefined;
     embed := VUndefined; embeds := VUndefined; components := VUndefined;
     username := VUndefined; avatarURL := VUndefined; flags := VUndefined;
     ephemeral := VUndefined; allowedMentions := VUndefined; reply := VUndefined;
     files := VUndefined; attachments := VUndefined; o_split := VUndefined;
     code := VUndefined |}.

(** A collection that knows the message [42]. *)
Definition messages42 : MessageManager :=
  {| resolveID := fun reference =>
       match reference with
       | VStr "42" => VStr "42"
       | _ => VNull
       end |}.

(** A text channel: none of the tested classes. *)
Definition channel : Target :=
  {| instance_of := fun _ => false;
     target_name := VStr "general";
     target_flags_bitfield := None;
     target_client_allowedMentions := Some VUndefined;
     target_messages := Some messages42;
     target_channel_messages := None |}.

Definition is_class (c c' : Class) : bool :=
  match c, c' with
  | Webhook, Webhook | WebhookClient, WebhookClient | User, User
  | GuildMember, GuildMember | Message, Message
  | Interaction, Interaction | InteractionWebhook, InteractionWebhook => true
  | _, _ => false
  end.

Definition webhook : Target :=
  {| instance_of := is_class Webhook;
     target_name := VStr "hook";
     target_flags_bitfield := None;
     target_client_allowedMentions := Some VUndefined;
     target_messages := None;
     target_channel_messages := None |}.

Definition interaction : Target :=
  {| instance_of := is_class Interaction;
     target_name := VUndefined;
     target_flags_bitfield := None;
     target_client_allowedMentions := Some VUndefined;
     target_messages := None;
     target_channel_messages := None |}.

(** A message in [channel], flagged [4]. *)
Definition message : Target :=
  {| instance_of := is_class Message;
     target_name := VUndefined;
     target_flags_bitfield := Some (VNum (Integer 4));
     target_client_allowedMentions := Some VUndefined;
     target_messages := None;
     target_channel_messages := Some messages42 |}.

(** A user whose messages are those of [channel]. *)
Definition user : Target :=
  {| instance_of := is_class User;
     target_name := VStr "general";
     target_flags_bitfield := None;
     target_client_allowedMentions := Some VUndefined;
     target_messages := Some messages42;
     target_channel_messages := None |}.

(** The options an object literal gives. *)
Definition options_of (literal : obj) : Options :=
  {| content := lookup "content" literal; tts := lookup "tts" literal;
     nonce := lookup "nonce" literal; embed := lookup "embed" literal;
     embeds := lookup "embeds" literal; components := lookup "components" literal;
     username := lookup "username" literal; avatarURL := lookup "avatarURL" literal;
     flags := lookup "flags" literal; ephemeral := lookup "ephemeral" literal;
     allowedMentions := lookup "allowedMentions" literal;
     reply := lookup "reply" literal; files := lookup "files" literal;
     attachments := lookup "attachments" literal; o_split := lookup "split" literal;
     code := lookup "code" literal |}.

Definition hi : Options := options_of [("content", VStr "hi")].

Definition with_embeds : Options :=
  options_of [("content", VStr "hi");
              ("embeds", VArr [VObj [("title", VStr "news")]])].

Definition two_lines : string := "aaaa" ++ nl ++ "bbbb".

(** [{content, code: 'js', split: {maxLength: 16}}] *)
Definition code_split : Options :=
  options_of [("content", VStr two_lines); ("code", VStr "js");
              ("split", VObj [("maxLength", VNum (Integer 16))])].

(** [{content, code: 'js', split: {maxLength: 18, prepend: '> '}}] *)
Definition code_split_quoted : Options :=
  options_of [("content", VStr two_lines); ("code", VStr "js");
              ("split", VObj [("maxLength", VNum (Integer 18));
                              ("prepend", VStr "> ")])].


Definition reply_to (reference : string) : Options :=
  options_of [("content", VStr "hi");
              ("reply", VObj [("messageReference", VStr reference)])].

Definition ephemeral_reply : Options :=
  options_of [("content", VStr "hi"); ("ephemeral", VBool true)].

(** [{files: [A, B], embeds: [{files: [C]}]}], where [A] is the
    slowest to load. *)
Definition three_files : Options :=
  options_of [("files", VArr [VStr "pictures/A.png"; VStr "B"]);
              ("embeds", VArr [VObj [("files", VArr [VStr "CC"])]])].

Definition one_missing : Options :=
  options_of [("files", VArr [VStr "pictures/A.png"; VStr "missing/B"]);
              ("embeds", VArr [VObj [("files", VArr [VStr "CC"])]])].

End Sample.

(** ** [TextChannel.createWebhook] *)

Module TextChannel.

(** What [createWebhook] takes from outside [TextChannel.js]. *)
Record Api := {
  (** [DataResolver.resolveImage(image)], for an image that is a string *)
  resolveImage : string -> Promise value;
  (** [client.api.channels[id].webhooks.post(request)] *)
  webhooks_post : value -> value -> Promise value;
  (** [new Webhook(client, data)] *)
  Webhook_new : value -> value -> result value
}.

(** What [createWebhook] reads from the channel. *)
Record Channel := {
  c_id : value;
  c_client : value
}.

(** The requests a call has posted, and the promise it returns. *)
Record Call := {
  requests : list value;
  response : Promise value
}.

Section CreateWebhook.

Variable A : Api.

(** [{ avatar, reason } = {}] *)
Definition avatar_and_reason (options : value) : result (value * value) :=
  match options with
  | VUndefined => OK (VUndefined, VUndefined)
  | _ =>
      avatar <- get options "avatar" ;;
      reason <- get options "reason" ;;
      OK (avatar, reason)
  end.

(** The avatar to post: a string that is not a data URI is resolved
    first, and the call waits for it. *)
Definition resolve_avatar (avatar : value) : Promise value :=
  match avatar with
  | VStr s =>
      if negb (prefix "data:" s) then resolveImage A s
      else APIMessage.settled (OK avatar)
  | _ => APIMessage.settled (OK avatar)
  end.

(** [createWebhook(name, options)]; the request is posted when the
    avatar is there, and the webhook made of the answer. *)
Definition createWebhook (this : Channel) (name options : value) : Call :=
  match avatar_and_reason options with
  | Err e => {| requests := []; response := APIMessage.settled (Err e) |}
  | OK (avatar, reason) =>
      let resolving := resolve_avatar avatar in
      match outcome resolving with
      | Err e =>
          {| requests := [];
             response := {| settles_at := settles_at resolving; outcome := Err e |} |}
      | OK avatar =>
          let request :=
            VObj [("data", VObj [("name", name); ("avatar", avatar)]);
                  ("reason", reason)] in
          let posted := webhooks_post A (c_id this) request in
          {| requests := [request];
             response :=
               {| settles_at := settles_at resolving + settles_at posted;
                  outcome := data <- outcome posted ;;
                             Webhook_new A (c_client this) data |} |}
      end
  end.

End CreateWebhook.

End TextChannel.

(** ** More concrete settings *)

Module Cases.

(** A channel whose client configures allowed mentions. *)
Definition configured_channel : Target :=
  {| instance_of := fun _ => false;
     target_name := VStr "general";
     target_flags_bitfield := None;
     target_client_allowedMentions :=
       Some (VObj [("parse", VArr [VStr "users"]); ("repliedUser", VBool true)]);
     target_messages := Some Sample.messages42;
     target_channel_messages := None |}.

(** An image service that takes three instants and knows no image
    whose name starts with [missing]; an API that answers a post
    after five instants with the data posted. *)
Definition api : TextChannel.Api :=
  {| TextChannel.resolveImage := fun image =>
       {| settles_at := 3;
          outcome := if prefix "missing" image then Err (Failure "ENOENT")
                     else OK (VStr ("data:image/png;base64," ++ image)) |};
     TextChannel.webhooks_post := fun id request =>
       {| settles_at := 5; outcome := OK (lookup "data" (spread_props request)) |};
     TextChannel.Webhook_new := fun client data => OK data |}.

Definition text_channel : TextChannel.Channel :=
  {| TextChannel.c_id := VStr "1"; TextChannel.c_client := VNull |}.

End Cases.

(** * Properties *)

Import APIMessage.

(** [H : bind r k = OK x]: [r] succeeded. *)
Ltac bind_ok H :=
  repeat match type of H with
    | bind ?r _ = OK _ =>
        let a := fresh "a" in
        let Ha := fresh "H" a in
        destruct r as [a|] eqn:Ha; simpl in H; [|discriminate H]
    end.

Section Properties.

Variable E : Deps.

(** *** Content *)

(** C2. Whatever the other options, [makeContent] turns a [content] of
    [null] into the empty string, and an absent [content] into
    [undefined]. *)
Theorem makeContent_null_undefined (o : Options) :
  makeContent E (set_content o VNull) = OK (VStr "") /\
  makeContent E (set_content o VUndefined) = OK VUndefined.
Proof.
  split; reflexivity.
Qed.

(** *** The payload *)

(** A payload that was built is made of the results of the steps of
    [resolveData], each of which succeeded. *)
Lemma build_data_inv t o d :
  build_data E t o = OK d ->
  exists content els js components flags am am' mr,
    makeContent E o = OK content /\
    (is_undefined (nonce o) = true \/ bad_nonce (nonce o) = false) /\
    embedLikes (isInteraction t || isWebhook t) o = OK els /\
    mapM (MessageEmbed_toJSON E) els = OK js /\
    make_components E o = OK components /\
    make_flags E t o = OK flags /\
    select_allowedMentions t o = OK am /\
    rename_repliedUser E am = OK am' /\
    make_message_reference t o = OK mr /\
    d = {| d_content := content;
           d_tts := VBool (truthy (tts o));
           d_nonce := nonce o;
           d_embed := if negb (isInteraction t || isWebhook t)
                      then match embed o with
                           | VNull => VNull
                           | _ => nth 0 js VUndefined
                           end
                      else VUndefined;
           d_embeds := if isInteraction t || isWebhook t then VArr js else VUndefined;
           d_components := components;
           d_username := if isWebhook t then or_else (username o) (target_name t)
                         else VUndefined;
           d_avatar_url := if isWebhook t && truthy (avatarURL o) then avatarURL o
                           else VUndefined;
           d_allowed_mentions :=
             if is_undefined content && is_undefined mr then VUndefined else am';
           d_flags := flags;
           d_message_reference := mr;
           d_attachments := attachments o |}.
Proof.
  unfold build_data. intros H.
  destruct (makeContent E o) as [content|] eqn:Hc; simpl in H; [|discriminate].
  destruct (is_undefined (nonce o)) eqn:Hu; simpl in H.
  - bind_ok H. injection H as <-.
    exists content, a, a0, a1, a2, a3, a4, a5.
    destruct (nonce o); try discriminate Hu. repeat split; auto.
  - destruct (bad_nonce (nonce o)) eqn:Hb; simpl in H; [discriminate|].
    bind_ok H. injection H as <-.
    exists content, a, a0, a1, a2, a3, a4, a5. repeat split; auto.
Qed.

(** [resolveData] on a new instance stores the payload it builds. *)
Lemma resolveData_new t o i :
  resolveData E (new t o) = OK i <->
  exists d, build_data E t o = OK d /\ i = set_data (new t o) d.
Proof.
  unfold resolveData. simpl. split.
  - intros H. bind_ok H. injection H as <-. eauto.
  - intros (d & -> & ->). reflexivity.
Qed.

(** C1. In the payload [resolveData] builds, [embed] and [embeds] are
    never both populated: for a webhook or interaction target [embeds]
    is an array and [embed] is [undefined]; for any other target
    [embeds] is [undefined] and [embed] is [null], [undefined] or the
    wire form of the one embed. *)
Theorem resolveData_embed_or_embeds t o i :
  resolveData E (new t o) = OK i ->
  exists d, data i = Some d /\
    (d_embed d = VUndefined \/ d_embeds d = VUndefined) /\
    if isWebhook t || isInteraction t
    then d_embed d = VUndefined /\ exists js, d_embeds d = VArr js
    else d_embeds d = VUndefined /\ single_embed E o (d_embed d).
Proof.
  intros H. apply resolveData_new in H as (d & Hd & ->).
  exists d. split; [reflexivity|].
  apply build_data_inv in Hd
    as (content & els & js & comps & fl & am & am' & mr & _ & _ & Hels & Hjs & _ & _ & _ & _ & _ & ->).
  rewrite (orb_comm (isWebhook t)). simpl.
  destruct (isInteraction t || isWebhook t); simpl.
  - split; [now left|]. split; [reflexivity|]. now exists js.
  - split; [now right|]. split; [reflexivity|].
    unfold embedLikes in Hels. unfold single_embed.
    destruct (truthy (embed o)) eqn:Ht.
    + injection Hels as <-. simpl in Hjs. bind_ok Hjs. simpl in Hjs.
      injection Hjs as <-. simpl.
      destruct (embed o); try discriminate Ht; right; right; auto.
    + injection Hels as <-. simpl in Hjs. injection Hjs as <-. simpl.
      destruct (embed o); try discriminate Ht;
        first [ left; split; reflexivity
              | right; left; split; [discriminate | split; reflexivity] ].
Qed.

(** *** Flags *)

(** C8. The [flags] of the payload: for a message target the explicit
    [flags] option resolved to its bit field, else the bit field of
    the target message; for an interaction target with a truthy
    [ephemeral], the ephemeral bit alone; for every other target
    nothing, and there the [ephemeral] option changes nothing in the
    payload. *)
Theorem resolveData_flags t o i :
  resolveData E (new t o) = OK i ->
  exists d, data i = Some d /\
    (if isMessage t then
       if nullish (flags o) then target_flags_bitfield t = Some (d_flags d)
       else MessageFlags_bitfield E (flags o) = OK (d_flags d)
     else if isInteraction t then
       d_flags d = if truthy (ephemeral o) then EPHEMERAL E else VUndefined
     else d_flags d = VUndefined) /\
    (isInteraction t = false ->
     forall e, build_data E t (set_ephemeral o e) = OK d).
Proof.
  intros H. apply resolveData_new in H as (d & Hd & ->).
  exists d. split; [reflexivity|]. split.
  - apply build_data_inv in Hd
      as (content & els & js & comps & fl & am & am' & mr & _ & _ & _ & _ & _ & Hfl & _ & _ & _ & ->).
    simpl. unfold make_flags in Hfl.
    destruct (isMessage t).
    + destruct (nullish (flags o)); simpl in Hfl.
      * destruct (target_flags_bitfield t); simpl in Hfl; [|discriminate].
        now injection Hfl as ->.
      * assumption.
    + destruct (isInteraction t); simpl in Hfl.
      * destruct (truthy (ephemeral o)); now injection Hfl as ->.
      * now injection Hfl as ->.
  - intros Hi e. rewrite <- Hd. unfold build_data, make_flags. simpl.
    rewrite Hi. reflexivity.
Qed.

(** *** Allowed mentions *)

Lemma lookup_assign_same k v o : lookup k (assign k v o) = v.
Proof.
  induction o as [|[k' v'] o IH]; simpl.
  - now rewrite String.eqb_refl.
  - destruct (k =? k') eqn:Hk; simpl.
    + now rewrite String.eqb_refl.
    + now rewrite Hk.
Qed.

Lemma lookup_assign_other k k' v o :
  k <> k' -> lookup k (assign k' v o) = lookup k o.
Proof.
  intros Hne. induction o as [|[k0 v0] o IH]; simpl.
  - apply String.eqb_neq in Hne. now rewrite Hne.
  - destruct (k' =? k0) eqn:Hk; simpl.
    + apply String.eqb_eq in Hk. subst k0.
      apply String.eqb_neq in Hne. now rewrite Hne.
    + now rewrite IH.
Qed.






(** *** Replies *)

(** With the options of [o] but no reply, the steps before the reply
    are those of [o]: what [o] builds is decided by its reply. *)
Lemma build_data_but_reply t o o0 d0 :
  reply o0 = VUndefined ->
  content o0 = content o /\ tts o0 = tts o /\ nonce o0 = nonce o /\
  embed o0 = embed o /\ embeds o0 = embeds o /\ components o0 = components o /\
  username o0 = username o /\ avatarURL o0 = avatarURL o /\ flags o0 = flags o /\
  ephemeral o0 = ephemeral o /\ allowedMentions o0 = allowedMentions o /\
  files o0 = files o /\ attachments o0 = attachments o /\
  o_split o0 = o_split o /\ code o0 = code o ->
  build_data E t o0 = OK d0 ->
  exists content am,
    build_data E t o
    = (message_reference <- make_message_reference t o ;;
       OK {| d_content := content;
             d_tts := d_tts d0;
             d_nonce := d_nonce d0;
             d_embed := d_embed d0;
             d_embeds := d_embeds d0;
             d_components := d_components d0;
             d_username := d_username d0;
             d_avatar_url := d_avatar_url d0;
             d_allowed_mentions :=
               if is_undefined content && is_undefined message_reference
               then VUndefined else am;
             d_flags := d_flags d0;
             d_message_reference := message_reference;
             d_attachments := d_attachments d0 |}).
Proof.
  intros Hr0 Hsame Hd0.
  assert (Ho0 : o0 = set_reply o VUndefined).
  { destruct o0, o. simpl in *.
    destruct Hsame as (-> & -> & -> & -> & -> & -> & -> & -> & -> & -> & -> & -> & -> & -> & ->).
    now subst. }
  subst o0.
  apply build_data_inv in Hd0
    as (content & els & js & comps & fl & am & am' & mr & Hc & Hn & Hels & Hjs & Hcs & Hfl & Hs & Hrn & _ & ->).
  exists content, am'. unfold build_data.
  change (makeContent E (set_reply o VUndefined)) with (makeContent E o) in Hc.
  change (nonce (set_reply o VUndefined)) with (nonce o) in Hn.
  change (embedLikes (isInteraction t || isWebhook t) (set_reply o VUndefined))
    with (embedLikes (isInteraction t || isWebhook t) o) in Hels.
  change (make_components E (set_reply o VUndefined)) with (make_components E o) in Hcs.
  change (make_flags E t (set_reply o VUndefined)) with (make_flags E t o) in Hfl.
  change (select_allowedMentions t (set_reply o VUndefined))
    with (select_allowedMentions t o) in Hs.
  rewrite Hc. simpl.
  assert (Hn' : (if is_undefined (nonce o) then OK VUndefined
                 else if bad_nonce (nonce o) then Err (RangeError "MESSAGE_NONCE_TYPE")
                      else OK (nonce o)) = OK (nonce o)).
  { destruct Hn as [Hn|Hn]; rewrite Hn.
    - now destruct (nonce o).
    - now destruct (is_undefined (nonce o)) eqn:Hu; [destruct (nonce o)|]. }
  rewrite Hn'. simpl. rewrite Hels. simpl. rewrite Hjs. simpl.
  rewrite Hcs. simpl. rewrite Hfl. simpl. rewrite Hs. simpl.
  rewrite Hrn. simpl. reflexivity.
Qed.

(** C5, as the code has it. Let [reply] be an object. The reply is
    resolved in the messages of the channel of the target when the
    target is a message, and in the messages of the target itself
    otherwise. When the target has that collection, the payload's
    [message_reference] is [{message_id, fail_if_not_exists}] if the
    collection resolves the reference to a truthy identifier,
    [fail_if_not_exists] being [true] unless [failIfNotExists] is
    given, and it is [undefined] otherwise, and the reply raises no
    error: options that build without it build with it. When the
    target has not that collection, as a webhook or an interaction
    has not, no payload is built, and options that build without the
    reply throw a type error with it. *)
Theorem resolveData_reply t o r :
  reply o = VObj r ->
  let collection :=
    if isMessage t then target_channel_messages t else target_messages t in
  let without_reply o0 :=
    reply o0 = VUndefined /\
    content o0 = content o /\ tts o0 = tts o /\ nonce o0 = nonce o /\
    embed o0 = embed o /\ embeds o0 = embeds o /\ components o0 = components o /\
    username o0 = username o /\ avatarURL o0 = avatarURL o /\ flags o0 = flags o /\
    ephemeral o0 = ephemeral o /\ allowedMentions o0 = allowedMentions o /\
    files o0 = files o /\ attachments o0 = attachments o /\
    o_split o0 = o_split o /\ code o0 = code o in
  (forall messages, collection = Some messages ->
     let message_id := resolveID messages (lookup "messageReference" r) in
     let message_reference :=
       if truthy message_id
       then VObj [("message_id", message_id);
                  ("fail_if_not_exists",
                   match lookup "failIfNotExists" r with
                   | VUndefined | VNull => VBool true
                   | given => given
                   end)]
       else VUndefined in
     (forall i, resolveData E (new t o) = OK i ->
        exists d, data i = Some d /\ d_message_reference d = message_reference) /\
     (forall o0 d0, without_reply o0 -> build_data E t o0 = OK d0 ->
        exists i d, resolveData E (new t o) = OK i /\ data i = Some d /\
          d_message_reference d = message_reference)) /\
  (collection = None ->
     (forall i, resolveData E (new t o) <> OK i) /\
     (forall o0 d0, without_reply o0 -> build_data E t o0 = OK d0 ->
        resolveData E (new t o) = Err TypeError)).
Proof.
  intros Hr collection without_reply.
  assert (Hcoll : reply_collection t = collection) by reflexivity.
  split.
  - intros messages Hm message_id message_reference.
    assert (Hmr : make_message_reference t o = OK message_reference).
    { unfold make_message_reference. rewrite Hr, Hcoll, Hm. simpl.
      fold message_id. subst message_reference.
      destruct (truthy message_id); [|reflexivity]. simpl.
      unfold coalesce. now destruct (lookup "failIfNotExists" r). }
    split.
    + intros i H. apply resolveData_new in H as (d & Hd & ->).
      exists d. split; [reflexivity|].
      apply build_data_inv in Hd
        as (content & els & js & comps & fl & am & am' & mr & _ & _ & _ & _ & _ & _ & _ & _ & Hmr' & ->).
      simpl. congruence.
    + intros o0 d0 [Hr0 Hsame] Hd0.
      destruct (build_data_but_reply t o o0 d0 Hr0 Hsame Hd0) as (content & am & Hb).
      rewrite Hmr in Hb. simpl in Hb.
      eexists. eexists. split; [apply resolveData_new; eauto|].
      split; reflexivity.
  - intros Hnone.
    assert (Hmr : make_message_reference t o = Err TypeError).
    { unfold make_message_reference. now rewrite Hr, Hcoll, Hnone. }
    split.
    + intros i H. apply resolveData_new in H as (d & Hd & _).
      apply build_data_inv in Hd
        as (content & els & js & comps & fl & am & am' & mr & _ & _ & _ & _ & _ & _ & _ & _ & Hmr' & _).
      congruence.
    + intros o0 d0 [Hr0 Hsame] Hd0.
      destruct (build_data_but_reply t o o0 d0 Hr0 Hsame Hd0) as (content & am & Hb).
      rewrite Hmr in Hb. simpl in Hb.
      unfold resolveData. simpl. now rewrite Hb.
Qed.

(** *** Splitting *)

(** What [split] leaves in the instance: nothing new if the payload was
    there, else the payload [resolveData] builds. *)
Lemma split_instance i this l :
  split E i = OK (this, l) ->
  (exists d, data i = Some d /\ this = i) \/
  (data i = None /\
   exists d, build_data E (target i) (options i) = OK d /\ this = set_data i d).
Proof.
  unfold split, resolveData. intros H.
  destruct (data i) as [d|] eqn:Hd.
  - left. exists d. split; [reflexivity|]. simpl in H. rewrite Hd in H. simpl in H.
    destruct (d_content d); now injection H as <- _.
  - right. split; [reflexivity|].
    destruct (build_data E (target i) (options i)) as [d|]; simpl in H; [|discriminate].
    exists d. split; [reflexivity|].
    destruct (d_content d); now injection H as <- _.
Qed.

Lemma split_result i this l :
  split E i = OK (this, l) ->
  exists d, data this = Some d /\
    l = match d_content d with
        | VArr chunks => map (chunk_instance this d chunks) (seq 0 (List.length chunks))
        | _ => [this]
        end.
Proof.
  intros H. pose proof (split_instance _ _ _ H) as Hi.
  unfold split in H.
  destruct Hi as [(d & Hd & ->)|(Hd & d & Hb & ->)].
  - rewrite Hd in H. simpl in H. rewrite Hd in H. simpl in H.
    exists d. split; [assumption|].
    destruct (d_content d); now injection H as <-.
  - rewrite Hd in H. unfold resolveData in H. rewrite Hd, Hb in H. simpl in H.
    exists d. split; [reflexivity|].
    destruct (d_content d); now injection H as <-.
Qed.

(** C3. When the built content is an array, [split] returns one new
    instance per chunk, each bound to the target of the original: the
    one of the last chunk has the options and the payload of the
    original with [content] replaced by the chunk; the one of any
    other chunk has a payload and options of [content], [tts] and the
    allowed mentions only, so no embeds, components or attachments.
    When the built content is not an array, [split] returns the
    original instance alone. *)
Theorem split_chunks i this l d :
  split E i = OK (this, l) ->
  data this = Some d ->
  target this = target i /\ options this = options i /\
  match d_content d with
  | VArr chunks =>
      List.length l = List.length chunks /\
      forall n c, nth_error chunks n = Some c ->
        exists m dm, nth_error l n = Some m /\
          target m = target i /\ i_files m = None /\ data m = Some dm /\
          content (options m) = c /\ d_content dm = c /\
          if (n =? List.length chunks - 1)%nat then
            (tts (options m) = tts (options i) /\
             nonce (options m) = nonce (options i) /\
             embed (options m) = embed (options i) /\
             embeds (options m) = embeds (options i) /\
             components (options m) = components (options i) /\
             username (options m) = username (options i) /\
             avatarURL (options m) = avatarURL (options i) /\
             flags (options m) = flags (options i) /\
             ephemeral (options m) = ephemeral (options i) /\
             allowedMentions (options m) = allowedMentions (options i) /\
             reply (options m) = reply (options i) /\
             files (options m) = files (options i) /\
             attachments (options m) = attachments (options i) /\
             o_split (options m) = o_split (options i) /\
             code (options m) = code (options i)) /\
            (d_tts dm = d_tts d /\ d_nonce dm = d_nonce d /\
             d_embed dm = d_embed d /\ d_embeds dm = d_embeds d /\
             d_components dm = d_components d /\
             d_username dm = d_username d /\
             d_avatar_url dm = d_avatar_url d /\
             d_allowed_mentions dm = d_allowed_mentions d /\
             d_flags dm = d_flags d /\
             d_message_reference dm = d_message_reference d /\
             d_attachments dm = d_attachments d)
          else
            (tts (options m) = d_tts d /\
             allowedMentions (options m) = allowedMentions (options i) /\
             nonce (options m) = VUndefined /\ embed (options m) = VUndefined /\
             embeds (options m) = VUndefined /\
             components (options m) = VUndefined /\
             username (options m) = VUndefined /\
             avatarURL (options m) = VUndefined /\
             flags (options m) = VUndefined /\ ephemeral (options m) = VUndefined /\
             reply (options m) = VUndefined /\ files (options m) = VUndefined /\
             attachments (options m) = VUndefined /\
             o_split (options m) = VUndefined /\ code (options m) = VUndefined) /\
            (d_tts dm = d_tts d /\
             d_allowed_mentions dm = allowedMentions (options i) /\
             d_embed dm = VUndefined /\ d_embeds dm = VUndefined /\
             d_components dm = VUndefined /\ d_attachments dm = VUndefined /\
             d_nonce dm = VUndefined /\ d_username dm = VUndefined /\
             d_avatar_url dm = VUndefined /\ d_flags dm = VUndefined /\
             d_message_reference dm = VUndefined)
  | _ => l = [this]
  end.
Proof.
  intros H Hd.
  assert (Ht : target this = target i /\ options this = options i).
  { destruct (split_instance _ _ _ H) as [(d' & _ & ->)|(_ & d' & _ & ->)]; now split. }
  destruct Ht as [Ht Ho]. split; [assumption|]. split; [assumption|].
  apply split_result in H as (d' & Hd' & ->).
  assert (d' = d) by congruence. subst d'.
  destruct (d_content d) as [| | | | |chunks| | |]; try reflexivity.
  split.
  - now rewrite length_map, length_seq.
  - intros n c Hn.
    assert (Hlt : n < List.length chunks) by (apply nth_error_Some; congruence).
    assert (Hm : nth_error (map (chunk_instance this d chunks) (seq 0 (List.length chunks))) n
                 = Some (chunk_instance this d chunks n)).
    { rewrite nth_error_map, nth_error_seq.
      apply Nat.ltb_lt in Hlt. now rewrite Hlt. }
    destruct (n =? List.length chunks - 1)%nat eqn:Hlast.
    + exists (chunk_instance this d chunks n), (set_d_content d c).
      split; [exact Hm|]. unfold chunk_instance.
      rewrite Hlast, (nth_error_nth _ _ VUndefined Hn), Ht, Ho. simpl.
      repeat split; reflexivity.
    + exists (chunk_instance this d chunks n),
        (minimal_data c (d_tts d) (allowedMentions (options i))).
      split; [exact Hm|]. unfold chunk_instance.
      rewrite Hlast, (nth_error_nth _ _ VUndefined Hn), Ht, Ho. simpl.
      repeat split; reflexivity.
Qed.

(** *** Memoisation *)

(** C9, as the code has it. A payload or a file list that is stored is
    returned as it is, whatever the collaborators would now compute;
    so a second [split] returns what the first returned. [split]
    leaves the target, the options and the files of the instance as
    they are, and a payload that is stored as it is; in an instance
    without a payload it stores the one [resolveData] builds. *)
Theorem memoised_once i :
  (forall i1, resolveData E i = OK i1 ->
     (forall E', resolveData E' i1 = OK i1) /\
     (forall d, data i = Some d -> i1 = i)) /\
  (forall i1, outcome (resolveFiles E i) = OK i1 ->
     (forall E', resolveFiles E' i1 = {| settles_at := 0; outcome := OK i1 |}) /\
     (forall fs, i_files i = Some fs -> i1 = i)) /\
  (forall this l, split E i = OK (this, l) ->
     (forall E', split E' this = OK (this, l)) /\
     target this = target i /\ options this = options i /\
     i_files this = i_files i /\
     (forall d, data i = Some d -> this = i /\ data this = Some d) /\
     (data i = None ->
      exists d, build_data E (target i) (options i) = OK d /\ data this = Some d)).
Proof.
  split; [|split].
  - unfold resolveData. intros i1 H. split.
    + intros E'. destruct (data i) eqn:Hd.
      * injection H as <-. now rewrite Hd.
      * bind_ok H. now injection H as <-.
    + intros d Hd. rewrite Hd in H. now injection H as <-.
  - unfold resolveFiles. intros i1 H. split.
    + intros E'. destruct (i_files i) eqn:Hf.
      * simpl in H. injection H as <-. now rewrite Hf.
      * destruct (fileLikes (target i) (options i)); [|discriminate H].
        simpl in H. bind_ok H. now injection H as <-.
    + intros fs Hf. rewrite Hf in H. simpl in H. now injection H as <-.
  - intros this l H. split; [|split; [|split; [|split; [|split]]]].
    + intros E'. pose proof (split_result _ _ _ H) as (d & Hd & Hl).
      unfold split. rewrite Hd. simpl. rewrite Hd. simpl.
      rewrite Hl. now destruct (d_content d).
    + destruct (split_instance _ _ _ H) as [(d' & _ & ->)|(_ & d' & _ & ->)]; reflexivity.
    + destruct (split_instance _ _ _ H) as [(d' & _ & ->)|(_ & d' & _ & ->)]; reflexivity.
    + destruct (split_instance _ _ _ H) as [(d' & _ & ->)|(_ & d' & _ & ->)]; reflexivity.
    + intros d Hd.
      destruct (split_instance _ _ _ H) as [(d' & _ & ->)|(Hn & _)]; [auto|congruence].
    + intros Hnone.
      destruct (split_instance _ _ _ H) as [(d' & Hd' & _)|(_ & d & Hb & ->)];
        [congruence|].
      exists d. split; [assumption|reflexivity].
Qed.

(** *** The user facet *)

Lemma build_data_alike t t' o :
  alike t t' -> build_data E t o = build_data E t' o.
Proof.
  intros (Hw & Hm & Hi & Hn & Hf & Hc & Hms & Hcm).
  unfold build_data, make_flags, select_allowedMentions, make_message_reference,
    reply_collection.
  now rewrite Hw, Hm, Hi, Hn, Hf, Hc, Hms, Hcm.
Qed.

Lemma fileLikes_alike t t' o :
  alike t t' -> fileLikes t o = fileLikes t' o.
Proof.
  intros (Hw & _ & Hi & _). unfold fileLikes. now rewrite Hw, Hi.
Qed.

Lemma chunk_instance_retarget t' this d chunks n :
  chunk_instance (retarget t' this) d chunks n
  = retarget t' (chunk_instance this d chunks n).
Proof.
  unfold chunk_instance. simpl.
  now destruct (n =? List.length chunks - 1)%nat.
Qed.

(** Instances whose targets are alike build, resolve and split
    alike. *)
Lemma alike_same_results i t' :
  alike (target i) t' ->
  resolveData E (retarget t' i) = map_result (retarget t') (resolveData E i) /\
  resolveFiles E (retarget t' i)
    = then_ (resolveFiles E i) (fun i1 => OK (retarget t' i1)) /\
  split E (retarget t' i)
    = map_result (fun r => (retarget t' (fst r), map (retarget t') (snd r)))
        (split E i).
Proof.
  intros Ha.
  assert (Hrd : resolveData E (retarget t' i)
                = map_result (retarget t') (resolveData E i)).
  { unfold resolveData. simpl. destruct (data i); [reflexivity|].
    rewrite <- (build_data_alike _ _ _ Ha).
    now destruct (build_data E (target i) (options i)). }
  split; [exact Hrd|]. split.
  - unfold resolveFiles. simpl. destruct (i_files i); [reflexivity|].
    rewrite <- (fileLikes_alike _ _ _ Ha).
    destruct (fileLikes (target i) (options i)) as [fl|]; [|reflexivity].
    unfold then_. simpl. f_equal.
    now destruct (outcome (Promise_all (map (resolveFile E) fl))).
  - unfold split, resolveData. simpl.
    destruct (data i) as [d|] eqn:Hd; simpl.
    + rewrite Hd. simpl. destruct (d_content d); try reflexivity. simpl.
      do 2 f_equal. rewrite map_map. apply map_ext.
      intros n. apply chunk_instance_retarget.
    + rewrite <- (build_data_alike _ _ _ Ha).
      destruct (build_data E (target i) (options i)) as [d|]; [|reflexivity].
      simpl. destruct (d_content d); try reflexivity. simpl.
      do 2 f_equal. rewrite map_map. apply map_ext.
      intros n. apply (chunk_instance_retarget t' (set_data i d)).
Qed.

(** C10. The user facet is not consulted: a target that has the user
    facet alone gives the payload, the files and the split result of
    the plain channel with the same properties, up to the target the
    resulting instances are bound to. *)
Theorem user_facet_unused t o :
  isUser t = true ->
  isWebhook t = false -> isMessage t = false -> isInteraction t = false ->
  let channel := as_channel t in
  resolveData E (new channel o)
    = map_result (retarget channel) (resolveData E (new t o)) /\
  resolveFiles E (new channel o)
    = then_ (resolveFiles E (new t o)) (fun i => OK (retarget channel i)) /\
  split E (new channel o)
    = map_result (fun r => (retarget channel (fst r), map (retarget channel) (snd r)))
        (split E (new t o)).
Proof.
  intros _ Hw Hm Hi channel.
  apply (alike_same_results (new t o) channel).
  unfold alike. simpl. now rewrite Hw, Hm, Hi.
Qed.

(** *** Files *)






End Properties.

(** ** The description of [Util.splitMessage] *)

Module SplitFacts.

Import Util.

Lemma length_append a b : String.length (a ++ b) = String.length a + String.length b.
Proof.
  induction a as [|c a IH]; simpl; [reflexivity|]. now rewrite IH.
Qed.

Lemma append_assoc a b c : (a ++ b) ++ c = a ++ (b ++ c).
Proof.
  induction a as [|x a IH]; simpl; [reflexivity|]. now rewrite IH.
Qed.

Lemma append_empty_r a : a ++ "" = a.
Proof.
  induction a as [|x a IH]; simpl; [reflexivity|]. now rewrite IH.
Qed.

Lemma take_drop n s : take n s ++ drop n s = s.
Proof.
  revert s. induction n as [|n IH]; intros [|c s]; simpl; try reflexivity.
  now rewrite IH.
Qed.

Lemma length_take n s : String.length (take n s) <= n.
Proof.
  revert s. induction n as [|n IH]; intros [|c s]; simpl; try lia.
  specialize (IH s). lia.
Qed.

Lemma length_drop n s : String.length (drop n s) = String.length s - n.
Proof.
  revert s. induction n as [|n IH]; intros [|c s]; simpl; auto.
Qed.

Lemma drop_drop n m s : drop m (drop n s) = drop (n + m) s.
Proof.
  revert s. induction n as [|n IH]; intros [|c s]; simpl; auto.
  now destruct m.
Qed.

Lemma prefix_drop a s : prefix a s = true -> s = a ++ drop (String.length a) s.
Proof.
  revert s. induction a as [|c a IH]; intros [|c' s] H; simpl in *;
    try reflexivity; try discriminate.
  destruct (ascii_dec c c') as [->|]; [|discriminate].
  f_equal. now apply IH.
Qed.

Lemma boundary_before_spec b text limit p :
  boundary_before b text limit = Some p ->
  p <= limit /\ prefix b (drop p text) = true.
Proof.
  induction limit as [|m IH]; cbn [boundary_before].
  - destruct (prefix b text) eqn:Hp; [|discriminate].
    intros [= <-]. split; [lia|]. now destruct text.
  - destruct (prefix b (drop (S m) text)) eqn:Hp.
    + intros [= <-]. split; [lia|assumption].
    + intros H. destruct (IH H). split; [lia|assumption].
Qed.

Lemma boundary_before_empty text limit :
  boundary_before "" text limit = Some limit.
Proof.
  destruct limit; cbn [boundary_before].
  - now destruct text.
  - now destruct (drop (S limit) text).
Qed.

(** A cut gives a piece of at most [room] characters, and the text is
    the piece, then the boundary or nothing, then the rest. *)
Lemma cut_spec cfg text room piece rest :
  cut cfg text room = (piece, rest) ->
  String.length piece <= room /\
  exists boundary, (boundary = "" \/ boundary = char cfg) /\
                   text = piece ++ boundary ++ rest.
Proof.
  unfold cut.
  destruct (boundary_before (char cfg) text room) as [p|] eqn:Hb; intros [= <- <-].
  - apply boundary_before_spec in Hb as [Hle Hp]. split.
    + pose proof (length_take p text). lia.
    + exists (char cfg). split; [now right|].
      apply prefix_drop in Hp. rewrite drop_drop in Hp.
      rewrite <- Hp. symmetry. apply take_drop.
  - split; [apply length_take|].
    exists "". split; [now left|]. simpl. symmetry. apply take_drop.
Qed.

(** A cut with room for a character shortens a text that is not
    empty. *)
Lemma cut_shorter cfg text room :
  0 < room -> 0 < String.length text ->
  String.length (snd (cut cfg text room)) < String.length text.
Proof.
  intros Hr Ht. unfold cut.
  destruct (boundary_before (char cfg) text room) as [p|] eqn:Hb; simpl;
    rewrite length_drop; [|lia].
  destruct (char cfg) as [|c b]; simpl; [|lia].
  rewrite boundary_before_empty in Hb. injection Hb as <-. lia.
Qed.

(** What the model returns is a chunking as described. *)
Lemma chunk_Chunks cfg fuel first text chunks :
  chunk cfg fuel first text = OK chunks -> Chunks cfg first text chunks.
Proof.
  revert first text chunks.
  induction fuel as [|fuel IH]; intros first text chunks; simpl.
  - destruct (_ <=? _)%nat eqn:Hfit.
    + intros [= <-]. constructor. now apply Nat.leb_le.
    + now destruct (_ - _ - _).
  - destruct (_ <=? _)%nat eqn:Hfit.
    + intros [= <-]. constructor. now apply Nat.leb_le.
    + destruct (maxLength cfg - String.length (pre cfg first)
                - String.length (append cfg)) as [|room] eqn:Hroom; [discriminate|].
      destruct (cut cfg text (S room)) as [piece rest] eqn:Hcut.
      intros H. bind_ok H. injection H as <-.
      apply cut_spec in Hcut as (Hlen & boundary & Hb & ->).
      constructor; auto.
      rewrite !length_append. lia.
Qed.

(** The length of the text is fuel enough: more changes nothing. *)
Lemma chunk_fuel cfg fuel fuel' first text :
  String.length text <= fuel -> String.length text <= fuel' ->
  chunk cfg fuel first text = chunk cfg fuel' first text.
Proof.
  revert fuel' first text.
  induction fuel as [|fuel IH]; intros fuel' first text Hf Hf'.
  - assert (text = "") by (destruct text; [reflexivity|simpl in Hf; lia]). subst text.
    destruct fuel'; simpl; [reflexivity|].
    destruct (_ <=? _)%nat eqn:Hfit; [reflexivity|].
    apply Nat.leb_gt in Hfit. rewrite length_append in Hfit. simpl in Hfit.
    destruct (_ - _ - _) eqn:Hroom; [reflexivity|lia].
  - destruct fuel' as [|fuel'].
    + assert (text = "") by (destruct text; [reflexivity|simpl in Hf'; lia]). subst text.
      simpl. destruct (_ <=? _)%nat eqn:Hfit; [reflexivity|].
      apply Nat.leb_gt in Hfit. rewrite length_append in Hfit. simpl in Hfit.
      destruct (_ - _ - _) eqn:Hroom; [reflexivity|lia].
    + simpl. destruct (_ <=? _)%nat eqn:Hfit; [reflexivity|].
      apply Nat.leb_gt in Hfit. rewrite length_append in Hfit.
      destruct (_ - _ - _) as [|room] eqn:Hroom; [reflexivity|].
      pose proof (cut_shorter cfg text (S room)) as Hs.
      destruct (cut cfg text (S room)) as [piece rest]. simpl in Hs.
      rewrite (IH fuel' false rest); [reflexivity|lia|lia].
Qed.

(** With room for a piece between [prepend] and [append], every text
    is split. *)
Lemma chunk_total cfg first text :
  String.length (prepend cfg) + String.length (append cfg) < maxLength cfg ->
  exists chunks, chunk cfg (String.length text) first text = OK chunks.
Proof.
  intros Hroom.
  assert (H : forall fuel first text, String.length text <= fuel ->
                exists chunks, chunk cfg fuel first text = OK chunks).
  { clear first text. induction fuel as [|fuel IH]; intros first text Hf.
    - assert (text = "") by (destruct text; [reflexivity|simpl in Hf; lia]). subst text.
      simpl. destruct (_ <=? _)%nat eqn:Hfit; [eauto|].
      apply Nat.leb_gt in Hfit. rewrite length_append in Hfit. simpl in Hfit.
      destruct first; simpl in *; lia.
    - simpl. destruct (_ <=? _)%nat eqn:Hfit; [eauto|].
      apply Nat.leb_gt in Hfit. rewrite length_append in Hfit.
      destruct (_ - _ - _) as [|room] eqn:Hr.
      + destruct first; simpl in *; lia.
      + pose proof (cut_shorter cfg text (S room)) as Hs.
        destruct (cut cfg text (S room)) as [piece rest]. simpl in Hs.
        destruct (IH false rest) as [cs Hcs]; [lia|].
        rewrite Hcs. simpl. eauto. }
  now apply H.
Qed.

(** The model splits every text when the configuration leaves room
    for a piece between [prepend] and [append]. *)
Lemma splitMessage_total limit text o cfg :
  read_options limit o = Some cfg ->
  String.length (prepend cfg) + String.length (append cfg) < maxLength cfg ->
  exists chunks, splitMessage limit text o = OK chunks.
Proof.
  intros Hcfg Hroom. unfold splitMessage. rewrite Hcfg. now apply chunk_total.
Qed.

(** The model is an implementation as described. *)
Lemma splitMessage_meets_split_spec limit :
  meets_split_spec limit (splitMessage limit).
Proof.
  intros text o cfg chunks Hcfg. unfold splitMessage. rewrite Hcfg.
  apply chunk_Chunks.
Qed.

(** No chunk is longer than [maxLength]. *)
Lemma Chunks_bound cfg first text chunks :
  Chunks cfg first text chunks ->
  Forall (fun c => String.length c <= maxLength cfg) chunks.
Proof.
  induction 1; constructor; auto.
Qed.

(** Every chunk after the first starts with [prepend]. *)
Lemma Chunks_prepend cfg first text chunks :
  Chunks cfg first text chunks ->
  Forall (starts_with (prepend cfg)) (if first then tl chunks else chunks).
Proof.
  induction 1 as [first text Hlen|first piece boundary rest chunks Hb Hlen Hrest IH].
  - destruct first; simpl; constructor; [|constructor]. now exists text.
  - destruct first; simpl; [exact IH|].
    constructor; [|exact IH]. now exists (piece ++ append cfg).
Qed.

(** Every chunk before the last ends with [append]. *)
Lemma Chunks_append cfg first text chunks :
  Chunks cfg first text chunks ->
  Forall (ends_with (append cfg)) (removelast chunks).
Proof.
  induction 1 as [first text Hlen|first piece boundary rest chunks Hb Hlen Hrest IH].
  - constructor.
  - assert (Hne : chunks <> []) by (inversion Hrest; discriminate).
    change (?c :: chunks) with ([c] ++ chunks)%list.
    rewrite removelast_app by assumption. simpl.
    constructor; [|exact IH].
    exists (pre cfg first ++ piece). now rewrite append_assoc.
Qed.

(** The first chunk is the whole text, or an initial piece of it
    followed by [append]. *)
Lemma Chunks_first cfg text chunks :
  Chunks cfg true text chunks ->
  chunks = [text] \/
  exists piece rest, starts_with piece text /\
                     chunks = (piece ++ append cfg) :: rest.
Proof.
  inversion 1; subst; simpl.
  - now left.
  - right. exists piece, chunks0. split; [|reflexivity]. now exists (boundary ++ rest).
Qed.

(** The last chunk is the whole text, or a final piece of it preceded
    by [prepend]. *)
Lemma Chunks_last cfg first text chunks :
  Chunks cfg first text chunks ->
  chunks = [pre cfg first ++ text] \/
  exists front piece, ends_with piece text /\
                      chunks = (front ++ [(prepend cfg ++ piece)%string])%list.
Proof.
  induction 1 as [first text Hlen|first piece boundary rest chunks Hb Hlen Hrest IH].
  - now left.
  - right. destruct IH as [->|(front & piece' & [x Hx] & ->)].
    + exists [pre cfg first ++ piece ++ append cfg], rest. split; [|reflexivity].
      exists (piece ++ boundary). now rewrite append_assoc.
    + exists ((pre cfg first ++ piece ++ append cfg) :: front), piece'.
      split; [|reflexivity].
      exists (piece ++ boundary ++ x). now rewrite Hx, !append_assoc.
Qed.

End SplitFacts.

(** ** Code blocks and splitting *)

Import SplitFacts.

Section CodeAndSplit.

Variable E : Deps.

(** The service limit of the description of [Util.splitMessage]. *)
Variable limit : nat.

Lemma lookup_inject_fences tag given :
  let splitOptions := inject_fences E tag given in
  lookup "prepend" splitOptions
  = VStr (to_string E (or_else (lookup "prepend" given) (VStr "")) ++ fence_open tag) /\
  lookup "append" splitOptions
  = VStr (fence_close ++ to_string E (or_else (lookup "append" given) (VStr ""))) /\
  forall k, k <> "prepend" -> k <> "append" -> lookup k splitOptions = lookup k given.
Proof.
  unfold inject_fences. repeat split.
  - rewrite lookup_assign_other by discriminate. apply lookup_assign_same.
  - rewrite lookup_assign_same.
    now rewrite (lookup_assign_other "append" "prepend") by discriminate.
  - intros k Hp Ha. now rewrite !lookup_assign_other by assumption.
Qed.

Lemma read_options_inject_fences tag given cfg :
  Util.read_options limit (inject_fences E tag given) = Some cfg ->
  Util.prepend cfg = to_string E (or_else (lookup "prepend" given) (VStr "")) ++ fence_open tag /\
  Util.append cfg = fence_close ++ to_string E (or_else (lookup "append" given) (VStr "")).
Proof.
  destruct (lookup_inject_fences tag given) as (Hp & Ha & _).
  unfold Util.read_options. rewrite Hp, Ha.
  destruct (lookup "maxLength" _) as [| | |[]| | | | |]; try discriminate;
    destruct (lookup "char" _); try discriminate;
    intros [= <-]; split; reflexivity.
Qed.

(** C6, as the code has it. A content that is a non-empty string, with
    [code] set, becomes a fenced block tagged by [code] when that is a
    string and untagged otherwise. With [split] set as well, the
    [prepend] of the split configuration gets the opening fence after
    what was configured, its [append] the closing fence before what
    was configured, and the block is split with that configuration;
    of a split as described, every chunk after the first then starts
    with the configured [prepend] followed by the opening fence, every
    chunk before the last ends with the closing fence followed by the
    configured [append], the first chunk is the block or starts as it
    starts, the last is the block or ends as it ends, and no chunk is
    longer than [maxLength]. *)
Theorem makeContent_code o s :
  content o = VStr s ->
  s <> "" ->
  verifyString E (VStr s) "MESSAGE_CONTENT_TYPE" false = OK s ->
  isCode o = true ->
  let tag := codeName o in
  let block := fence_open tag ++ cleanCodeBlockContent E s ++ fence_close in
  let given := spread_props (o_split o) in
  let before := to_string E (or_else (lookup "prepend" given) (VStr "")) in
  let after := to_string E (or_else (lookup "append" given) (VStr "")) in
  let splitOptions := inject_fences E tag given in
  (forall language, code o = VStr language -> tag = language) /\
  (code o = VBool true -> tag = "") /\
  (isSplit o = false -> makeContent E o = OK (VStr block)) /\
  (isSplit o = true ->
   lookup "prepend" splitOptions = VStr (before ++ fence_open tag) /\
   lookup "append" splitOptions = VStr (fence_close ++ after) /\
   (forall k, k <> "prepend" -> k <> "append" ->
              lookup k splitOptions = lookup k given) /\
   makeContent E o
   = (chunks <- splitMessage E block splitOptions ;; OK (VArr (map VStr chunks))) /\
   (Util.meets_split_spec limit (splitMessage E) ->
    forall cfg chunks,
      Util.read_options limit splitOptions = Some cfg ->
      makeContent E o = OK (VArr (map VStr chunks)) ->
      Forall (fun c => String.length c <= Util.maxLength cfg) chunks /\
      Forall (Util.starts_with (before ++ fence_open tag)) (tl chunks) /\
      Forall (Util.ends_with (fence_close ++ after)) (removelast chunks) /\
      (chunks = [block] \/
       exists first_piece last_piece front rest,
         Util.starts_with first_piece block /\ Util.ends_with last_piece block /\
         chunks = (first_piece ++ fence_close ++ after) :: rest /\
         chunks = (front ++ [(before ++ fence_open tag ++ last_piece)%string])%list))).
Proof.
  intros Hc Hs Hv Hcode tag block given before after splitOptions.
  assert (Hmc : makeContent E o
                = if isSplit o
                  then chunks <- splitMessage E block splitOptions ;;
                       OK (VArr (map VStr chunks))
                  else OK (VStr block)).
  { unfold makeContent. rewrite Hc. simpl. rewrite Hv. simpl.
    apply String.eqb_neq in Hs. rewrite Hs. simpl. rewrite Hcode.
    now destruct (isSplit o). }
  split; [intros language Hl; subst tag; unfold codeName; now rewrite Hl|].
  split; [intros Hl; subst tag; unfold codeName; now rewrite Hl|].
  split; intros Hsplit; rewrite Hsplit in Hmc; [assumption|].
  destruct (lookup_inject_fences tag given) as (Hp & Ha & Hk).
  repeat (split; [assumption|]).
  intros Hspec cfg chunks Hcfg Hok.
  rewrite Hmc in Hok.
  destruct (splitMessage E block splitOptions) as [chunks'|] eqn:Hsm; [|discriminate].
  simpl in Hok. injection Hok as Hok.
  assert (chunks' = chunks).
  { clear - Hok. revert chunks Hok.
    induction chunks' as [|c cs IH]; intros [|c' cs']; simpl; try discriminate; auto.
    intros [= -> H]. f_equal. auto. }
  subst chunks'.
  pose proof (Hspec _ _ _ _ Hcfg Hsm) as Hch.
  destruct (read_options_inject_fences _ _ _ Hcfg) as [Hpre Happ].
  fold before in Hpre. fold after in Happ. fold tag in Hpre.
  split; [now apply (Chunks_bound _ _ _ _ Hch)|].
  split; [rewrite <- Hpre; apply (Chunks_prepend _ _ _ _ Hch)|].
  split; [rewrite <- Happ; apply (Chunks_append _ _ _ _ Hch)|].
  destruct (Chunks_first _ _ _ Hch) as [->|(p1 & rest & Hp1 & Hfirst)]; [now left|].
  destruct (Chunks_last _ _ _ _ Hch) as [Hl|(front & p2 & Hp2 & Hlast)].
  - left. exact Hl.
  - right. exists p1, p2, front, rest.
    rewrite <- Happ. repeat split; auto.
    rewrite Hlast, Hpre. now rewrite append_assoc.
Qed.

End CodeAndSplit.

(** * Examples *)

(** [makeContent] on [{content: null}] and on [{}]. *)
Example makeContent_null :
  makeContent Sample.E0 (Sample.options_of [("content", VNull)]) = OK (VStr "") /\
  makeContent Sample.E0 (Sample.options_of []) = OK VUndefined.
Proof.
  split; reflexivity.
Qed.

(** A block of two lines, split at sixteen characters. *)
Example makeContent_code_split :
  makeContent Sample.E0 Sample.code_split
  = OK (VArr [VStr ("```js" ++ nl ++ "aaaa" ++ nl ++ "```");
              VStr ("```js" ++ nl ++ "bbbb" ++ nl ++ "```")]).
Proof.
  reflexivity.
Qed.

(** The three files come in the order they are declared, though the
    first is the last to load. *)
Example resolveFiles_three_files :
  exists i fs,
    resolveFiles Sample.E0 (new Sample.webhook Sample.three_files)
    = {| settles_at := 14; outcome := OK i |} /\
    i_files i = Some fs /\
    map f_name fs = [VStr "A.png"; VStr "B"; VStr "CC"].
Proof.
  do 2 eexists. split; [reflexivity|]. split; reflexivity.
Qed.

(** A missing file rejects the call when its loading fails, before the
    slower first file is loaded. *)
Example resolveFiles_one_missing :
  resolveFiles Sample.E0 (new Sample.webhook Sample.one_missing)
  = {| settles_at := 9; outcome := Err (Failure "ENOENT") |}.
Proof.
  reflexivity.
Qed.

(** C1, on a webhook with one embed. *)
Lemma resolveData_embed_or_embeds_witness :
  exists i,
    resolveData Sample.E0 (new Sample.webhook Sample.with_embeds) = OK i /\
    exists d, data i = Some d /\
      d_embed d = VUndefined /\ exists js, d_embeds d = VArr js.
Proof.
  eexists. split; [reflexivity|].
  destruct (resolveData_embed_or_embeds Sample.E0 Sample.webhook Sample.with_embeds _
              eq_refl) as (d & Hd & _ & He).
  exists d. split; [exact Hd|exact He].
Defined.

(** C3, on a content of two chunks. *)
Lemma split_chunks_witness :
  exists this l d,
    split Sample.E0 (new Sample.channel Sample.code_split) = OK (this, l) /\
    data this = Some d /\
    target this = Sample.channel /\ options this = Sample.code_split /\
    List.length l = 2.
Proof.
  do 3 eexists. split; [reflexivity|]. split; [reflexivity|].
  destruct (split_chunks Sample.E0 (new Sample.channel Sample.code_split) _ _ _
              eq_refl eq_refl) as (Ht & Ho & Hl & _).
  split; [exact Ht|]. split; [exact Ho|exact Hl].
Defined.



(** C5, on a reference the collection resolves. *)
Lemma resolveData_reply_witness :
  exists i d,
    resolveData Sample.E0 (new Sample.channel (Sample.reply_to "42")) = OK i /\
    data i = Some d /\
    d_message_reference d
    = VObj [("message_id", VStr "42"); ("fail_if_not_exists", VBool true)].
Proof.
  destruct (resolveData_reply Sample.E0 Sample.channel (Sample.reply_to "42")
              [("messageReference", VStr "42")] eq_refl) as [H _].
  destruct (H Sample.messages42 eq_refl) as [_ H'].
  destruct (H' Sample.hi _ (conj eq_refl
              (conj eq_refl (conj eq_refl (conj eq_refl (conj eq_refl (conj eq_refl
              (conj eq_refl (conj eq_refl (conj eq_refl (conj eq_refl (conj eq_refl
              (conj eq_refl (conj eq_refl (conj eq_refl (conj eq_refl eq_refl)))))))))))))))
              eq_refl) as (i & d & Hi & Hd & Hmr).
  exists i, d. split; [exact Hi|]. split; [exact Hd|exact Hmr].
Defined.

(** Against "no error is raised", on a webhook: it has no message
    collection, and a reply that is an object throws a type error
    where the same options without the reply build a payload. *)
Lemma reply_on_webhook_throws :
  reply (Sample.reply_to "42") = VObj [("messageReference", VStr "42")] /\
  resolveData Sample.E0 (new Sample.webhook (Sample.reply_to "42")) = Err TypeError /\
  exists i, resolveData Sample.E0 (new Sample.webhook Sample.hi) = OK i.
Proof.
  split; [reflexivity|]. split; [reflexivity|]. eexists. reflexivity.
Qed.

(** A reference the collection does not resolve: no reference in the
    payload, and no error. *)
Example resolveData_reply_unresolved :
  exists i d,
    resolveData Sample.E0 (new Sample.channel (Sample.reply_to "7")) = OK i /\
    data i = Some d /\ d_message_reference d = VUndefined.
Proof.
  do 2 eexists. split; [reflexivity|]. split; reflexivity.
Qed.

(** C6, on the block of two lines split at sixteen characters. *)
Lemma makeContent_code_witness :
  exists chunks,
    makeContent Sample.E0 Sample.code_split = OK (VArr (map VStr chunks)) /\
    Forall (fun c => String.length c <= 16) chunks /\
    Forall (Util.starts_with ("```js" ++ nl)) (tl chunks) /\
    Forall (Util.ends_with (nl ++ "```")) (removelast chunks).
Proof.
  exists ["```js" ++ nl ++ "aaaa" ++ nl ++ "```"; "```js" ++ nl ++ "bbbb" ++ nl ++ "```"].
  split; [reflexivity|].
  assert (Hne : Sample.two_lines <> "") by discriminate.
  destruct (makeContent_code Sample.E0 2000 Sample.code_split Sample.two_lines
              eq_refl Hne eq_refl eq_refl) as (_ & _ & _ & H).
  destruct (H eq_refl) as (_ & _ & _ & _ & Hchunks).
  destruct (Hchunks (splitMessage_meets_split_spec 2000) _ _ eq_refl eq_refl)
    as (Hlen & Hpre & Happ & _).
  split; [exact Hlen|]. split; [exact Hpre|exact Happ].
Defined.

(** Against "every chunk starts with the opening fence", when the
    split configuration has a [prepend] of its own: the second chunk
    starts with it, and the fence comes after. *)
Lemma chunk_starts_with_configured_prepend :
  exists first second,
    makeContent Sample.E0 Sample.code_split_quoted
    = OK (VArr [VStr first; VStr second]) /\
    second = "> ```js" ++ nl ++ "bbbb" ++ nl ++ "```" /\
    ~ Util.starts_with "```js" second.
Proof.
  do 2 eexists. split; [reflexivity|]. split; [reflexivity|].
  intros [x H]. discriminate H.
Qed.


(** C8, on an interaction answered in private. *)
Lemma resolveData_flags_witness :
  exists i d,
    resolveData Sample.E0 (new Sample.interaction Sample.ephemeral_reply) = OK i /\
    data i = Some d /\ d_flags d = VNum (Integer 64).
Proof.
  eexists.
  destruct (resolveData_flags Sample.E0 Sample.interaction Sample.ephemeral_reply _
              eq_refl) as (d & Hd & Hf & _).
  exists d. split; [reflexivity|]. split; [exact Hd|exact Hf].
Defined.

(** An edited message keeps its flags, and takes those it is given. *)
Example resolveData_flags_message :
  map_result (fun i => option_map d_flags (data i))
    (resolveData Sample.E0 (new Sample.message Sample.hi))
  = OK (Some (VNum (Integer 4))) /\
  map_result (fun i => option_map d_flags (data i))
    (resolveData Sample.E0
       (new Sample.message (Sample.options_of [("flags", VNum (Integer 2))])))
  = OK (Some (VNum (Integer 2))).
Proof.
  split; reflexivity.
Qed.

(** C9, on a content of two chunks: the second [split] returns the
    two instances of the first. *)
Lemma memoised_once_witness :
  exists this l,
    split Sample.E0 (new Sample.channel Sample.code_split) = OK (this, l) /\
    split Sample.E0 this = OK (this, l) /\
    options this = Sample.code_split /\ List.length l = 2.
Proof.
  do 2 eexists. split; [reflexivity|].
  destruct (memoised_once Sample.E0 (new Sample.channel Sample.code_split))
    as (_ & _ & H).
  destruct (H _ _ eq_refl) as (Hagain & _ & Ho & _).
  split; [exact (Hagain Sample.E0)|]. split; [exact Ho|reflexivity].
Defined.

(** Against "never mutates the data", on a new instance: it has no
    payload before [split], and has one after. *)
Lemma split_stores_the_payload :
  exists this l d,
    data (new Sample.channel Sample.hi) = None /\
    split Sample.E0 (new Sample.channel Sample.hi) = OK (this, l) /\
    data this = Some d /\ d_content d = VStr "hi".
Proof.
  do 3 eexists. split; [reflexivity|]. split; [reflexivity|].
  split; reflexivity.
Qed.

(** C10, on a user and the channel with its properties. *)
Lemma user_facet_unused_witness :
  isUser Sample.user = true /\
  resolveData Sample.E0 (new (as_channel Sample.user) Sample.code_split)
  = map_result (retarget (as_channel Sample.user))
      (resolveData Sample.E0 (new Sample.user Sample.code_split)).
Proof.
  split; [reflexivity|].
  exact (proj1 (user_facet_unused Sample.E0 Sample.user Sample.code_split
                  eq_refl eq_refl eq_refl eq_refl)).
Defined.

(** * Further properties of the builder *)

(** ** Creation *)

Lemma has_key_In k (o : obj) : has_key k o = true <-> In k (map fst o).
Proof.
  induction o as [|[k' v] o IH]; simpl.
  - split; [discriminate|contradiction].
  - rewrite orb_true_iff, IH, String.eqb_eq. split; intros [H|H]; auto.
Qed.

Lemma lookup_absent k (o : obj) : has_key k o = false -> lookup k o = VUndefined.
Proof.
  induction o as [|[k' v] o IH]; simpl; [reflexivity|].
  intros H. apply orb_false_iff in H as [-> H]. auto.
Qed.

(** In [{...a, ...b}] a property is that of [b] if [b] has it, and
    that of [a] otherwise. *)
Lemma lookup_spread_over k a b :
  NoDup (map fst b) ->
  lookup k (spread_over a b) = if has_key k b then lookup k b else lookup k a.
Proof.
  unfold spread_over. revert a.
  induction b as [|[k1 v1] b IH]; intros a Hnd; simpl; [reflexivity|].
  inversion Hnd as [|? ? Hnotin Hnd']; subst.
  rewrite (IH _ Hnd').
  destruct (k =? k1) eqn:Hk; simpl.
  - apply String.eqb_eq in Hk. subst k1.
    destruct (has_key k b) eqn:Hb.
    + apply has_key_In in Hb. contradiction.
    + apply lookup_assign_same.
  - destruct (has_key k b); [reflexivity|].
    apply lookup_assign_other. now apply String.eqb_neq.
Qed.

(** X1. For [options] and [extra] that have no key twice, as objects
    have none: [create] gives a new instance of the target, nothing
    built or resolved. Every property of its options is that of [extra] if
    [extra] has it; otherwise it is that of [options] when [options]
    is an object, and when it is not (a string, say, or [null]) the
    only property is [content], which is [options] itself: the
    shorthand is the same as the object [{content: options}]. *)
Theorem create_options t opts extra :
  NoDup (map fst (spread_props opts)) ->
  NoDup (map fst (spread_props extra)) ->
  let i := create t opts extra in
  target i = t /\ data i = None /\ i_files i = None /\
  options i = options_of_object (created_options opts extra) /\
  (forall k,
     lookup k (created_options opts extra)
     = if has_key k (spread_props extra) then lookup k (spread_props extra)
       else if negb (typeof_object opts) || is_null opts
            then (if k =? "content" then opts else VUndefined)
            else lookup k (spread_props opts)) /\
  (negb (typeof_object opts) || is_null opts = true ->
   i = create t (VObj [("content", opts)]) extra).
Proof.
  intros Ho He i. repeat (split; [reflexivity|]). split.
  - intros k. unfold created_options.
    destruct (negb (typeof_object opts) || is_null opts).
    + rewrite (lookup_spread_over _ _ _ He). reflexivity.
    + rewrite (lookup_spread_over _ _ _ He), (lookup_spread_over _ _ _ Ho).
      destruct (has_key k (spread_props extra)); [reflexivity|].
      destruct (has_key k (spread_props opts)) eqn:Hk; [reflexivity|].
      symmetry. now apply lookup_absent.
  - intros Hs. subst i. unfold create, created_options. rewrite Hs. reflexivity.
Qed.

(** ** One file *)

Section OneFile.

Variable E : Deps.

(** The name [findName] gives is [file.jpg] or a base name. *)
Lemma findName_spec thing name :
  findName E thing = OK name -> named_after E thing name.
Proof.
  unfold findName, named_after. intros H.
  destruct thing as [| | |n|s|items|props|bytes|path]; simpl in H;
    try discriminate;
    try (bind_ok H; injection H as <-; left; split; [reflexivity|eauto]; fail);
    right; split; try reflexivity.
  - injection H as <-. now exists VUndefined.
  - injection H as <-. now exists VUndefined.
  - injection H as <-. now exists VUndefined.
  - destruct (truthy (lookup "path" props)) eqn:Ht.
    + bind_ok H. injection H as <-. exists (lookup "path" props).
      split; [reflexivity|]. rewrite Ht. eauto.
    + injection H as <-. exists (lookup "path" props). split; [reflexivity|].
      now rewrite Ht.
  - injection H as <-. now exists VUndefined.
  - destruct (truthy path) eqn:Ht.
    + bind_ok H. injection H as <-. exists path. split; [reflexivity|].
      rewrite Ht. eauto.
    + injection H as <-. exists path. split; [reflexivity|]. now rewrite Ht.
Qed.

(** X2. A file that [resolveFile] resolves keeps as attachment the
    file-like value itself if that is a string, a buffer or a stream,
    and its [attachment] property otherwise; its resource is what the
    loader gave for that attachment, at the instant the loader gave
    it; and its name is, for a described file, the [name] property
    when that is truthy, and in all other cases the base name of the
    attachment if that is a string, else the base name of its truthy
    [path], else [file.jpg]. *)
Theorem resolveFile_resolved fileLike r :
  outcome (resolveFile E fileLike) = OK r ->
  let loading := DataResolver_resolveFile E (f_attachment r) in
  outcome loading = OK (f_file r) /\
  settles_at (resolveFile E fileLike) = settles_at loading /\
  match fileLike with
  | VStr _ | VBuffer _ | VStream _ =>
      f_attachment r = fileLike /\ named_after E fileLike (f_name r)
  | _ =>
      get fileLike "attachment" = OK (f_attachment r) /\
      exists name, get fileLike "name" = OK name /\
        if truthy name then f_name r = name
        else named_after E (f_attachment r) (f_name r)
  end.
Proof.
  unfold resolveFile. intros H.
  destruct (name_file E fileLike) as [[attachment name]|] eqn:Hn; [|discriminate H].
  simpl in H. bind_ok H. injection H as <-. simpl.
  split; [assumption|]. split; [reflexivity|].
  unfold name_file in Hn.
  destruct fileLike; simpl in Hn; try discriminate Hn;
    bind_ok Hn;
    try (injection Hn as <- <-; split; [reflexivity|now apply findName_spec]; fail);
    injection Hn as <- <-; (split; [reflexivity|]);
    (eexists; split; [reflexivity|]);
    match goal with
    | H : (if truthy ?n then _ else _) = OK _ |- _ =>
        destruct (truthy n); [congruence|now apply findName_spec]
    end.
Qed.

(** X3. [resolveFile] is rejected at once, nothing being loaded, with
    a [TypeError] for [null] and [undefined], and for a described
    file without a truthy [name] whose [attachment] is [null] or
    [undefined]; once the file is named, the call fails exactly as
    the loader fails, with its error and at its instant. *)
Theorem resolveFile_rejected fileLike :
  (nullish fileLike = true ->
   resolveFile E fileLike = settled (Err TypeError)) /\
  (forall f, fileLike = VObj f ->
     truthy (lookup "name" f) = false -> nullish (lookup "attachment" f) = true ->
     resolveFile E fileLike = settled (Err TypeError)) /\
  (forall attachment name e,
     name_file E fileLike = OK (attachment, name) ->
     outcome (DataResolver_resolveFile E attachment) = Err e ->
     resolveFile E fileLike
     = {| settles_at := settles_at (DataResolver_resolveFile E attachment);
          outcome := Err e |}) /\
  (forall e, outcome (resolveFile E fileLike) = Err e ->
     name_file E fileLike = Err e \/
     exists attachment name,
       name_file E fileLike = OK (attachment, name) /\
       outcome (DataResolver_resolveFile E attachment) = Err e).
Proof.
  repeat split.
  - now destruct fileLike.
  - intros f -> Hname Hatt. unfold resolveFile, name_file. simpl. rewrite Hname.
    destruct (lookup "attachment" f); try discriminate Hatt; reflexivity.
  - intros attachment name e Hn He. unfold resolveFile, then_. rewrite Hn, He.
    reflexivity.
  - unfold resolveFile. intros e H.
    destruct (name_file E fileLike) as [[attachment name]|e'] eqn:Hn.
    + right. exists attachment, name. split; [reflexivity|].
      revert H. simpl.
      destruct (outcome (DataResolver_resolveFile E attachment)); simpl;
        [discriminate|congruence].
    + left. simpl in H. congruence.
Qed.

End OneFile.

(** ** More of the payload *)

Section MorePayload.

Variable E : Deps.

Lemma mapM_Forall2 {A B} (f : A -> result B) l js :
  mapM f l = OK js <-> Forall2 (fun a b => f a = OK b) l js.
Proof.
  revert js. induction l as [|a l IH]; intros js; simpl; split.
  - intros [= <-]. constructor.
  - inversion 1. reflexivity.
  - intros H. bind_ok H. injection H as <-. constructor; [assumption|]. now apply IH.
  - inversion 1 as [|? b ? bs Hb Hbs]; subst. rewrite Hb. simpl.
    apply IH in Hbs. now rewrite Hbs.
Qed.

(** X4. The content is made before the nonce is looked at, so an
    error of the content is the one thrown; with a content, a nonce
    that is given and is neither an integer nor a string throws the
    range error [MESSAGE_NONCE_TYPE], for every target and whatever
    the other options; and the nonce of a payload that is built is
    the option as it is, absent, an integer or a string. *)
Theorem resolveData_nonce t o :
  (forall e, makeContent E o = Err e -> build_data E t o = Err e) /\
  (forall c, makeContent E o = OK c ->
     is_undefined (nonce o) = false -> bad_nonce (nonce o) = true ->
     build_data E t o = Err (RangeError "MESSAGE_NONCE_TYPE")) /\
  (forall d, build_data E t o = OK d ->
     d_nonce d = nonce o /\
     (nonce o = VUndefined \/ (exists z, nonce o = VNum (Integer z))
      \/ exists s, nonce o = VStr s)).
Proof.
  split; [|split].
  - intros e He. unfold build_data. now rewrite He.
  - intros c Hc Hu Hb. unfold build_data. now rewrite Hc, Hu, Hb.
  - intros d H.
    apply build_data_inv in H
      as (content & els & js & comps & fl & am & am' & mr & _ & Hn & _ & _ & _ & _ & _ & _ & _ & ->).
    split; [reflexivity|].
    destruct (nonce o) as [| | |[z| |]|s| | | |]; simpl in Hn;
      destruct Hn as [Hn|Hn]; try discriminate Hn; eauto.
Qed.

(** X5. The payload of a webhook target has as [username] the
    [username] option when that is truthy and the name of the webhook
    otherwise, and as [avatar_url] the [avatarURL] option when that
    is truthy and nothing otherwise. The payload of any other target
    has neither, and is the same whatever the two options are. *)
Theorem resolveData_webhook_identity t o d :
  build_data E t o = OK d ->
  if isWebhook t then
    d_username d = (if truthy (username o) then username o else target_name t) /\
    d_avatar_url d = (if truthy (avatarURL o) then avatarURL o else VUndefined)
  else
    d_username d = VUndefined /\ d_avatar_url d = VUndefined /\
    forall name avatar, build_data E t (set_webhook_identity o name avatar) = OK d.
Proof.
  intros H. pose proof H as H'.
  apply build_data_inv in H'
    as (content & els & js & comps & fl & am & am' & mr & _ & _ & _ & _ & _ & _ & _ & _ & _ & ->).
  simpl. destruct (isWebhook t) eqn:Hw.
  - split; reflexivity.
  - repeat split. intros name avatar. rewrite <- H.
    unfold build_data. rewrite Hw. reflexivity.
Qed.

(** X6. The [components] of the payload are [undefined] when the
    option is [undefined] or [null]. When the option is an array they
    are an array of the same length, in the same order, of the wire
    forms of its entries, an entry that is itself an array being
    first wrapped in an action row. A string, a number, a boolean or
    a plain object for option builds no payload. *)
Theorem resolveData_components t o d :
  build_data E t o = OK d ->
  match components o with
  | VUndefined | VNull => d_components d = VUndefined
  | VArr cs =>
      exists js, d_components d = VArr js /\
        Forall2 (fun c j =>
                   Component_toJSON E
                     (match c with
                      | VArr _ => VObj [("type", ACTION_ROW E); ("components", c)]
                      | _ => c
                      end) = OK j) cs js
  | VBuffer bs => exists stored, d_components d = VBuffer stored
  | VBool _ | VNum _ | VStr _ | VObj _ | VStream _ => False
  end.
Proof.
  intros H.
  apply build_data_inv in H
    as (content & els & js & comps & fl & am & am' & mr & _ & _ & _ & _ & Hc & _ & _ & _ & _ & ->).
  simpl. unfold make_components in Hc.
  destruct (components o) as [| | | | |cs| |bs|]; try discriminate Hc;
    try (now injection Hc as <-).
  - bind_ok Hc. injection Hc as <-. exists a. split; [reflexivity|].
    apply mapM_Forall2 in Ha.
    clear - Ha. induction Ha as [|c j cs js Hc _ IH]; constructor; [|exact IH].
    unfold make_component in Hc. now destruct c.
  - bind_ok Hc. injection Hc as <-. eauto.
Qed.

(** X7. For a webhook or interaction target the [embeds] of the
    payload are the wire forms of the values the [embeds] option
    iterates to, as many and in the same order; none if the option is
    falsy. *)
Theorem resolveData_embeds_in_order t o d :
  build_data E t o = OK d ->
  isInteraction t || isWebhook t = true ->
  exists es js,
    d_embeds d = VArr js /\
    (if truthy (embeds o) then iterate (embeds o) = OK es else es = []) /\
    (forall given, embeds o = VArr given -> es = given) /\
    Forall2 (fun e j => MessageEmbed_toJSON E e = OK j) es js.
Proof.
  intros H Hw.
  apply build_data_inv in H
    as (content & els & js & comps & fl & am & am' & mr & _ & _ & Hels & Hjs & _ & _ & _ & _ & _ & ->).
  simpl. rewrite Hw in *. exists els, js. split; [reflexivity|].
  unfold embedLikes in Hels. split; [|split].
  - destruct (truthy (embeds o)); [assumption|now injection Hels as <-].
  - intros given Hg. rewrite Hg in Hels. simpl in Hels. now injection Hels as <-.
  - now apply mapM_Forall2.
Qed.

(** X8. Options of another dialect are not read. For a target that is
    neither a webhook nor an interaction the [embeds] option changes
    neither the payload nor the files gathered; for a webhook or an
    interaction the [embed] option changes neither; and for a target
    that is not a message the [flags] option does not change the
    payload. *)
Theorem options_of_other_dialects t o :
  (isInteraction t || isWebhook t = false ->
   forall e, build_data E t (set_embeds o e) = build_data E t o /\
             fileLikes t (set_embeds o e) = fileLikes t o) /\
  (isInteraction t || isWebhook t = true ->
   forall e, build_data E t (set_embed o e) = build_data E t o /\
             fileLikes t (set_embed o e) = fileLikes t o) /\
  (isMessage t = false ->
   forall f, build_data E t (set_flags o f) = build_data E t o).
Proof.
  split; [|split].
  - intros H e. split.
    + unfold build_data, embedLikes. simpl. rewrite H. reflexivity.
    + unfold fileLikes, embedLikes. simpl. rewrite H. reflexivity.
  - intros H e. split.
    + unfold build_data, embedLikes. simpl. rewrite H. reflexivity.
    + unfold fileLikes, embedLikes. simpl. rewrite H. reflexivity.
  - intros H f. unfold build_data, make_flags. simpl. rewrite H. reflexivity.
Qed.

(** X9. Where the options build a payload without a reply: a [reply]
    that is not an object, a message identifier say, is not read, and
    the payload is the same; a [reply] of [null] throws a type error,
    and so does a reply that is an object when the target has not the
    message collection the reply is resolved in. *)
Theorem resolveData_reply_edges t o d :
  build_data E t (set_reply o VUndefined) = OK d ->
  (forall r, typeof_object r = false -> build_data E t (set_reply o r) = OK d) /\
  build_data E t (set_reply o VNull) = Err TypeError /\
  (forall r, typeof_object r = true -> reply_collection t = None ->
             build_data E t (set_reply o r) = Err TypeError).
Proof.
  intros H.
  pose proof H as H'.
  apply build_data_inv in H'
    as (content & els & js & comps & fl & am & am' & mr & Hc & Hn & Hels & Hjs & Hcs & Hfl & Hs & Hrn & Hmr & _).
  assert (Hsteps : forall r,
            build_data E t (set_reply o r)
            = (message_reference <- make_message_reference t (set_reply o r) ;;
               OK {| d_content := content;
                     d_tts := VBool (truthy (tts o));
                     d_nonce := nonce o;
                     d_embed := if negb (isInteraction t || isWebhook t)
                                then match embed o with
                                     | VNull => VNull
                                     | _ => nth 0 js VUndefined
                                     end
                                else VUndefined;
                     d_embeds := if isInteraction t || isWebhook t then VArr js
                                 else VUndefined;
                     d_components := comps;
                     d_username := if isWebhook t
                                   then or_else (username o) (target_name t)
                                   else VUndefined;
                     d_avatar_url := if isWebhook t && truthy (avatarURL o)
                                     then avatarURL o else VUndefined;
                     d_allowed_mentions :=
                       if is_undefined content && is_undefined message_reference
                       then VUndefined else am';
                     d_flags := fl;
                     d_message_reference := message_reference;
                     d_attachments := attachments o |})).
  { intros r. unfold build_data.
    change (makeContent E (set_reply o r)) with (makeContent E (set_reply o VUndefined)).
    rewrite Hc. simpl.
    assert (Hn' : (if is_undefined (nonce o) then OK VUndefined
                   else if bad_nonce (nonce o) then Err (RangeError "MESSAGE_NONCE_TYPE")
                        else OK (nonce o)) = OK (nonce o)).
    { simpl in Hn. destruct Hn as [Hn|Hn]; rewrite Hn.
      - now destruct (nonce o).
      - now destruct (is_undefined (nonce o)) eqn:Hu; [destruct (nonce o)|]. }
    rewrite Hn'. simpl.
    change (embedLikes (isInteraction t || isWebhook t) (set_reply o r))
      with (embedLikes (isInteraction t || isWebhook t) (set_reply o VUndefined)).
    rewrite Hels. simpl. rewrite Hjs. simpl.
    change (make_components E (set_reply o r))
      with (make_components E (set_reply o VUndefined)).
    rewrite Hcs. simpl.
    change (make_flags E t (set_reply o r)) with (make_flags E t (set_reply o VUndefined)).
    rewrite Hfl. simpl.
    change (select_allowedMentions t (set_reply o r))
      with (select_allowedMentions t (set_reply o VUndefined)).
    rewrite Hs. simpl. rewrite Hrn. simpl. reflexivity. }
  split; [|split].
  - intros r Hr. rewrite Hsteps, <- H, (Hsteps VUndefined).
    unfold make_message_reference. simpl. now rewrite Hr.
  - rewrite Hsteps. unfold make_message_reference. simpl.
    now destruct (reply_collection t).
  - intros r Hr Hcoll. rewrite Hsteps. unfold make_message_reference. simpl.
    now rewrite Hr, Hcoll.
Qed.

End MorePayload.

(** ** More of the content and of splitting *)

Section MoreSplitting.

Variable E : Deps.

(** What [makeContent] returns, and when. *)
Lemma makeContent_cases o v :
  makeContent E o = OK v ->
  (v = VUndefined /\ content o = VUndefined) \/
  (exists s, v = VStr s /\ (isSplit o = false \/ s = "")) \/
  (exists chunks, v = VArr (map VStr chunks) /\ isSplit o = true /\
                  nullish (content o) = false).
Proof.
  unfold makeContent. intros H.
  destruct (content o) eqn:Hc; simpl in H;
    try (injection H as <-; auto; right; left; exists ""; auto; fail);
    (destruct (verifyString E _ _ _) as [s0|]; simpl in H; [|discriminate H]);
    (destruct (s0 =? "") eqn:Hs; simpl in H;
     [apply String.eqb_eq in Hs; subst s0; injection H as <-;
      right; left; exists ""; auto|]);
    (destruct (isCode o); destruct (isSplit o); simpl in H;
     try (injection H as <-; right; left; eauto; fail);
     bind_ok H; injection H as <-; right; right; eauto).
Qed.

(** X10. [makeContent] returns [undefined], a string or an array of
    strings: [undefined] only for a content that is absent, and an
    array only when [split] is set and the content is neither [null]
    nor absent; with [split] set, a string is returned only if it is
    empty. *)
Theorem makeContent_result o v :
  makeContent E o = OK v ->
  match v with
  | VUndefined => content o = VUndefined
  | VStr s => isSplit o = false \/ s = ""
  | VArr items =>
      isSplit o = true /\ nullish (content o) = false /\
      Forall (fun c => is_string c = true) items
  | _ => False
  end.
Proof.
  intros H.
  destruct (makeContent_cases o v H)
    as [[-> Hc]|[(s & -> & Hs)|(chunks & -> & Hs & Hc)]]; auto.
  repeat split; auto. apply Forall_forall. intros c Hin.
  apply in_map_iff in Hin as (x & <- & _). reflexivity.
Qed.

(** X11. Without [code] a content is not altered: if the content is
    verified to be the string [s], then [s] is returned as it is when
    [split] is not set or [s] is empty, and otherwise [s] is split
    with the split configuration as it was given. *)
Theorem makeContent_plain o s :
  verifyString E (content o) "MESSAGE_CONTENT_TYPE" false = OK s ->
  nullish (content o) = false ->
  isCode o = false ->
  makeContent E o
  = if isSplit o && negb (s =? "")
    then chunks <- splitMessage E s (spread_props (o_split o)) ;;
         OK (VArr (map VStr chunks))
    else OK (VStr s).
Proof.
  intros Hv Hn Hc. unfold makeContent.
  destruct (content o); try discriminate Hn; rewrite Hv; simpl; rewrite Hc;
    destruct (s =? ""); destruct (isSplit o); reflexivity.
Qed.

(** The content of a payload that was built is not an array unless
    [split] is set, and the items of an array are strings. *)
Lemma build_data_content t o d :
  build_data E t o = OK d ->
  match d_content d with
  | VArr items => isSplit o = true /\ Forall (fun c => is_string c = true) items
  | _ => True
  end.
Proof.
  intros H.
  apply build_data_inv in H
    as (content & els & js & comps & fl & am & am' & mr & Hc & _ & _ & _ & _ & _ & _ & _ & _ & ->).
  simpl. apply makeContent_result in Hc.
  destruct content; auto. destruct Hc as (? & _ & ?). auto.
Qed.

(** X12. When the [split] option is not set, [split] on a new
    instance fails as [resolveData] fails, and otherwise returns the
    instance alone, with its payload. *)
Theorem split_without_split_option t o :
  isSplit o = false ->
  split E (new t o)
  = map_result (fun i => (i, [i])) (resolveData E (new t o)).
Proof.
  intros Hs. unfold split, resolveData. simpl.
  destruct (build_data E t o) as [d|] eqn:Hd; [|reflexivity]. simpl.
  apply build_data_content in Hd.
  destruct (d_content d); try reflexivity.
  destruct Hd as [Hd _]. congruence.
Qed.

Lemma content_of_chunk_instance this d chunks n :
  content_of (chunk_instance this d chunks n) = nth n chunks VUndefined.
Proof.
  unfold chunk_instance, content_of.
  now destruct (n =? List.length chunks - 1)%nat.
Qed.

Lemma map_nth_seq {A} (l : list A) (a : A) :
  map (fun n => nth n l a) (seq 0 (List.length l)) = l.
Proof.
  apply (nth_ext _ _ a a).
  - now rewrite length_map, length_seq.
  - intros n Hn. rewrite length_map, length_seq in Hn.
    rewrite (nth_indep _ a (nth 0 l a)) by (now rewrite length_map, length_seq).
    rewrite (map_nth (fun n => nth n l a) (seq 0 (List.length l)) 0 n).
    now rewrite seq_nth.
Qed.

(** X13. The instances [split] returns for a new instance carry, in
    order, the chunks of the content; each of them is already built,
    so that [resolveData] returns it as it is; and splitting one of
    them again returns it alone. *)
Theorem split_results_are_final t o this l :
  split E (new t o) = OK (this, l) ->
  (forall chunks, content_of this = VArr chunks -> map content_of l = chunks) /\
  Forall (fun m => forall E', resolveData E' m = OK m /\ split E' m = OK (m, [m])) l.
Proof.
  intros H.
  pose proof (split_result E _ _ _ H) as (d & Hd & Hl).
  assert (Hc : match d_content d with
               | VArr items => Forall (fun c => is_string c = true) items
               | _ => True
               end).
  { destruct (split_instance E _ _ _ H) as [(d' & Hd' & _)|(_ & d' & Hb & ->)];
      [discriminate Hd'|].
    simpl in Hd. injection Hd as <-. apply build_data_content in Hb.
    destruct (d_content d'); auto. now destruct Hb. }
  unfold content_of at 1. rewrite Hd. split.
  - intros chunks Hch. rewrite Hch in Hl. subst l. rewrite map_map.
    erewrite map_ext; [apply map_nth_seq|].
    intros n. apply content_of_chunk_instance.
  - destruct (d_content d) as [| | | | |chunks| | |] eqn:Hcont;
      try (subst l; constructor; [|constructor]; intros E';
           unfold split, resolveData; rewrite Hd; simpl; rewrite Hd; simpl;
           rewrite Hcont; split; reflexivity).
    subst l. apply Forall_forall. intros m Hin.
    apply in_map_iff in Hin as (n & <- & Hn). apply in_seq in Hn.
    assert (Hs : is_string (nth n chunks VUndefined) = true).
    { rewrite Forall_forall in Hc. apply Hc. apply nth_In. lia. }
    intros E'. unfold split, resolveData, chunk_instance.
    destruct (n =? List.length chunks - 1)%nat; simpl;
      destruct (nth n chunks VUndefined); try discriminate Hs; split; reflexivity.
Qed.

(** X14. Of the instances [split] returns for a content of several
    chunks, every one but the last has no file to resolve:
    [resolveFiles] stores the empty list at once. The last has no
    files stored, whatever the original had, and gathers the
    file-like values of the original again. *)
Theorem split_results_files i this l d chunks n m :
  split E i = OK (this, l) ->
  data this = Some d ->
  d_content d = VArr chunks ->
  nth_error l n = Some m ->
  if (n =? List.length chunks - 1)%nat then
    i_files m = None /\
    fileLikes (target m) (options m) = fileLikes (target i) (options i)
  else
    forall E', exists stored,
      resolveFiles E' m = {| settles_at := 0; outcome := OK stored |} /\
      i_files stored = Some [] /\
      target stored = target m /\ options stored = options m /\
      data stored = data m.
Proof.
  intros H Hd Hc Hn.
  assert (Ht : target this = target i /\ options this = options i).
  { destruct (split_instance E _ _ _ H) as [(d' & _ & ->)|(_ & d' & _ & ->)]; now split. }
  destruct Ht as [Ht Ho].
  apply split_result in H as (d' & Hd' & ->).
  assert (d' = d) by congruence. subst d'. rewrite Hc in Hn.
  rewrite nth_error_map in Hn.
  destruct (nth_error (seq 0 (List.length chunks)) n) as [k|] eqn:Hk; [|discriminate Hn].
  assert (Hlt : n < List.length (seq 0 (List.length chunks)))
    by (apply nth_error_Some; congruence).
  rewrite length_seq in Hlt.
  rewrite nth_error_seq in Hk. apply Nat.ltb_lt in Hlt. rewrite Hlt in Hk.
  injection Hk as <-. simpl in Hn. injection Hn as <-.
  unfold chunk_instance. rewrite Ht, Ho.
  destruct (n =? List.length chunks - 1)%nat; simpl.
  - split; reflexivity.
  - intros E'. eexists. unfold resolveFiles, fileLikes, embedLikes. simpl.
    split; [destruct (isInteraction (target i) || isWebhook (target i)); reflexivity|].
    repeat split.
Qed.

(** X15. On a content of several chunks the allowed mentions the
    client configures reach the last chunk only: when the option is
    not given and the client has a truthy default, the payload of the
    last instance has the clone of the default, [repliedUser] renamed,
    and the payloads of the other instances have no allowed
    mentions. *)
Theorem split_client_default_mentions t o this l chunks default c n m :
  allowedMentions o = VUndefined ->
  target_client_allowedMentions t = Some default ->
  truthy default = true ->
  cloneObject E default = OK c ->
  split E (new t o) = OK (this, l) ->
  content_of this = VArr chunks ->
  nth_error l n = Some m ->
  exists dm, data m = Some dm /\
    d_allowed_mentions dm
    = if (n =? List.length chunks - 1)%nat then VObj (renamed c) else VUndefined.
Proof.
  intros Ho Hdef Htr Hcl H Hc Hn.
  destruct (split_instance E _ _ _ H) as [(d' & Hd' & _)|(_ & d & Hb & ->)];
    [discriminate Hd'|].
  apply split_result in H as (d' & Hd' & ->).
  simpl in Hd'. injection Hd' as <-.
  unfold content_of in Hc. simpl in Hc. rewrite Hc in Hn.
  rewrite nth_error_map in Hn.
  destruct (nth_error (seq 0 (List.length chunks)) n) as [k|] eqn:Hk; [|discriminate Hn].
  assert (Hlt : n < List.length (seq 0 (List.length chunks)))
    by (apply nth_error_Some; congruence).
  rewrite length_seq in Hlt.
  rewrite nth_error_seq in Hk. apply Nat.ltb_lt in Hlt. rewrite Hlt in Hk.
  injection Hk as <-. simpl in Hn. injection Hn as <-.
  unfold chunk_instance.
  destruct (n =? List.length chunks - 1)%nat; simpl.
  - eexists. split; [reflexivity|]. simpl.
    apply build_data_inv in Hb
      as (content & els & js & comps & fl & am & am' & mr & _ & _ & _ & _ & _ & _ & Hs & Hr & _ & ->).
    simpl in *. subst content. simpl.
    unfold select_allowedMentions in Hs. rewrite Ho, Hdef in Hs. simpl in Hs.
    injection Hs as <-.
    unfold rename_repliedUser in Hr. rewrite Htr, Hcl in Hr. simpl in Hr.
    now injection Hr as <-.
  - eexists. split; [reflexivity|]. simpl. exact Ho.
Qed.

Lemma length_chars s : List.length (chars s) = String.length s.
Proof.
  induction s as [|c s IH]; simpl; auto.
Qed.

(** X16. Without files in the options and without embed-like values,
    [resolveFiles] stores the empty list at once. Files that are
    truthy and do not iterate, an object or a number say, reject the
    call at once with a type error. Files given as one string are
    taken character by character, each character a file-like value of
    its own. *)
Theorem resolveFiles_edges t o :
  embedLikes (isInteraction t || isWebhook t) o = OK [] ->
  (truthy (files o) = false ->
   exists stored,
     resolveFiles E (new t o) = {| settles_at := 0; outcome := OK stored |} /\
     i_files stored = Some [] /\
     target stored = t /\ options stored = o /\ data stored = None) /\
  (truthy (files o) = true -> (forall l, iterate (files o) <> OK l) ->
   resolveFiles E (new t o) = {| settles_at := 0; outcome := Err TypeError |}) /\
  (forall s, files o = VStr s -> s <> "" ->
     fileLikes t o = OK (chars s) /\
     List.length (chars s) = String.length s).
Proof.
  intros He. split; [|split].
  - intros Hf. exists (set_files (new t o) []).
    unfold resolveFiles, fileLikes. simpl. rewrite He, Hf.
    repeat split; reflexivity.
  - intros Hf Hi. unfold resolveFiles, fileLikes. simpl. rewrite He, Hf. simpl.
    destruct (files o); simpl in *; try reflexivity; exfalso; eapply Hi; reflexivity.
  - intros s Hs Hne. split; [|apply length_chars].
    unfold fileLikes. rewrite He, Hs. simpl.
    apply String.eqb_neq in Hne. rewrite Hne. simpl. now rewrite app_nil_r.
Qed.

End MoreSplitting.

(** ** Creating a webhook *)

Section CreatingWebhooks.

Import TextChannel.

Variable A : Api.


End CreatingWebhooks.

(** ** Building and resolving in either order *)

Section EitherOrder.

Variable E : Deps.

(** X18. Building the payload and resolving the files do not depend
    on each other: when both succeed on an instance, resolving the
    files of the built instance settles at the same instant as on the
    instance itself, and gives the instance that building after
    resolving gives. *)
Theorem resolveData_resolveFiles_commute i built resolved :
  resolveData E i = OK built ->
  outcome (resolveFiles E i) = OK resolved ->
  exists both,
    outcome (resolveFiles E built) = OK both /\
    settles_at (resolveFiles E built) = settles_at (resolveFiles E i) /\
    resolveData E resolved = OK both /\
    target both = target i /\ options both = options i.
Proof.
  unfold resolveData, resolveFiles. intros Hd Hf.
  destruct (data i) as [d|] eqn:Hdata.
  - injection Hd as <-. exists resolved. split; [assumption|]. split; [reflexivity|].
    destruct (i_files i) eqn:Hfiles; simpl in Hf.
    + injection Hf as <-. rewrite Hdata. auto.
    + destruct (fileLikes (target i) (options i)); [|discriminate Hf].
      simpl in Hf. bind_ok Hf. injection Hf as <-. simpl. rewrite Hdata. auto.
  - bind_ok Hd. injection Hd as <-. simpl.
    destruct (i_files i) eqn:Hfiles; simpl in Hf.
    + injection Hf as <-. rewrite Hdata, Ha. simpl.
      exists (set_data i a). auto.
    + destruct (fileLikes (target i) (options i)) as [fl|] eqn:Hfl; [|discriminate Hf].
      simpl in Hf. bind_ok Hf. injection Hf as <-. simpl.
      rewrite Hdata, Ha, Ha0. simpl.
      exists (set_data (set_files i a0) a). repeat split; reflexivity.
Qed.

End EitherOrder.

(** * More examples *)

(** X1, on the shorthand [create(channel, 'hi', {tts: true})]. *)
Lemma create_options_witness :
  content (options (create Sample.channel (VStr "hi") (VObj [("tts", VBool true)])))
  = VStr "hi" /\
  create Sample.channel (VStr "hi") (VObj [("tts", VBool true)])
  = create Sample.channel (VObj [("content", VStr "hi")]) (VObj [("tts", VBool true)]).
Proof.
  assert (H1 : NoDup (map fst (spread_props (VStr "hi")))).
  { repeat constructor; simpl; intuition discriminate. }
  assert (H2 : NoDup (map fst (spread_props (VObj [("tts", VBool true)])))).
  { repeat constructor; simpl; intuition discriminate. }
  destruct (create_options Sample.channel (VStr "hi") (VObj [("tts", VBool true)]) H1 H2)
    as (_ & _ & _ & _ & _ & Hs).
  split; [reflexivity|exact (Hs eq_refl)].
Defined.

(** X2, on a described file with a name of its own. *)
Lemma resolveFile_resolved_witness :
  exists r,
    outcome (resolveFile Sample.E0
               (VObj [("attachment", VStr "pictures/A.png"); ("name", VStr "cat.png")]))
    = OK r /\
    f_name r = VStr "cat.png" /\
    outcome (DataResolver_resolveFile Sample.E0 (f_attachment r)) = OK (f_file r).
Proof.
  eexists. split; [reflexivity|]. split; [reflexivity|].
  exact (proj1 (resolveFile_resolved Sample.E0
                  (VObj [("attachment", VStr "pictures/A.png"); ("name", VStr "cat.png")])
                  _ eq_refl)).
Defined.

(** X3, on the empty object. *)
Lemma resolveFile_rejected_witness :
  resolveFile Sample.E0 (VObj []) = settled (Err TypeError).
Proof.
  destruct (resolveFile_rejected Sample.E0 (VObj [])) as (_ & H & _).
  exact (H [] eq_refl eq_refl eq_refl).
Defined.

(** X4, on a nonce that is a boolean. *)
Lemma resolveData_nonce_witness :
  build_data Sample.E0 Sample.channel
    (Sample.options_of [("content", VStr "hi"); ("nonce", VBool true)])
  = Err (RangeError "MESSAGE_NONCE_TYPE").
Proof.
  destruct (resolveData_nonce Sample.E0 Sample.channel
              (Sample.options_of [("content", VStr "hi"); ("nonce", VBool true)]))
    as (_ & H & _).
  exact (H _ eq_refl eq_refl eq_refl).
Defined.

(** X5, on a webhook that is given no name. *)
Lemma resolveData_webhook_identity_witness :
  exists d,
    build_data Sample.E0 Sample.webhook Sample.hi = OK d /\
    d_username d = VStr "hook" /\ d_avatar_url d = VUndefined.
Proof.
  eexists. split; [reflexivity|].
  exact (resolveData_webhook_identity Sample.E0 Sample.webhook Sample.hi _ eq_refl).
Defined.

(** X6, on one row given as a bare array. *)
Lemma resolveData_components_witness :
  exists d js,
    build_data Sample.E0 Sample.channel
      (Sample.options_of [("components", VArr [VArr [VObj [("type", VNum (Integer 2))]]])])
    = OK d /\
    d_components d = VArr js.
Proof.
  eexists.
  destruct (resolveData_components Sample.E0 Sample.channel
              (Sample.options_of
                 [("components", VArr [VArr [VObj [("type", VNum (Integer 2))]]])])
              _ eq_refl) as (js & Hjs & _).
  exists js. split; [reflexivity|exact Hjs].
Defined.

(** X7, on a webhook with one embed. *)
Lemma resolveData_embeds_in_order_witness :
  exists d js,
    build_data Sample.E0 Sample.webhook Sample.with_embeds = OK d /\
    d_embeds d = VArr js /\
    Forall2 (fun e j => MessageEmbed_toJSON Sample.E0 e = OK j)
      [VObj [("title", VStr "news")]] js.
Proof.
  eexists.
  destruct (resolveData_embeds_in_order Sample.E0 Sample.webhook Sample.with_embeds
              _ eq_refl eq_refl) as (es & js & Hjs & _ & Hes & HF).
  exists js. split; [reflexivity|]. split; [exact Hjs|].
  rewrite <- (Hes _ eq_refl). exact HF.
Defined.

(** X8, on embeds sent to a channel. *)
Lemma options_of_other_dialects_witness :
  build_data Sample.E0 Sample.channel
    (set_embeds Sample.hi (VArr [VObj [("title", VStr "news")]]))
  = build_data Sample.E0 Sample.channel Sample.hi.
Proof.
  destruct (options_of_other_dialects Sample.E0 Sample.channel Sample.hi) as (H & _).
  exact (proj1 (H eq_refl _)).
Defined.

(** X9, on a reply given as an identifier, and on a reply of [null]. *)
Lemma resolveData_reply_edges_witness :
  build_data Sample.E0 Sample.channel (set_reply Sample.hi (VStr "42"))
  = build_data Sample.E0 Sample.channel (set_reply Sample.hi VUndefined) /\
  build_data Sample.E0 Sample.channel (set_reply Sample.hi VNull) = Err TypeError.
Proof.
  destruct (resolveData_reply_edges Sample.E0 Sample.channel Sample.hi _ eq_refl)
    as (H1 & H2 & _).
  split; [exact (H1 (VStr "42") eq_refl)|exact H2].
Defined.

(** X10, on the block of two lines. *)
Lemma makeContent_result_witness :
  exists items,
    makeContent Sample.E0 Sample.code_split = OK (VArr items) /\
    isSplit Sample.code_split = true /\
    Forall (fun c => is_string c = true) items.
Proof.
  eexists. split; [reflexivity|].
  destruct (makeContent_result Sample.E0 Sample.code_split _ eq_refl) as (H1 & _ & H2).
  split; [exact H1|exact H2].
Defined.

(** X11, on a plain content. *)
Lemma makeContent_plain_witness :
  makeContent Sample.E0 Sample.hi = OK (VStr "hi").
Proof.
  exact (makeContent_plain Sample.E0 Sample.hi "hi" eq_refl eq_refl eq_refl).
Defined.

(** X12, on a plain content. *)
Lemma split_without_split_option_witness :
  split Sample.E0 (new Sample.channel Sample.hi)
  = map_result (fun i => (i, [i])) (resolveData Sample.E0 (new Sample.channel Sample.hi)).
Proof.
  exact (split_without_split_option Sample.E0 Sample.channel Sample.hi eq_refl).
Defined.

(** X13, on the block of two lines. *)
Lemma split_results_are_final_witness :
  exists this l,
    split Sample.E0 (new Sample.channel Sample.code_split) = OK (this, l) /\
    map content_of l
    = [VStr ("```js" ++ nl ++ "aaaa" ++ nl ++ "```");
       VStr ("```js" ++ nl ++ "bbbb" ++ nl ++ "```")] /\
    Forall (fun m => split Sample.E0 m = OK (m, [m])) l.
Proof.
  do 2 eexists. split; [reflexivity|].
  destruct (split_results_are_final Sample.E0 Sample.channel Sample.code_split _ _
              eq_refl) as [H1 H2].
  split; [exact (H1 _ eq_refl)|].
  revert H2. apply Forall_impl. intros m H. exact (proj2 (H Sample.E0)).
Defined.

(** X14, on the first of the two instances. *)
Lemma split_results_files_witness :
  exists this l m,
    split Sample.E0 (new Sample.channel Sample.code_split) = OK (this, l) /\
    nth_error l 0 = Some m /\
    exists stored,
      resolveFiles Sample.E0 m = {| settles_at := 0; outcome := OK stored |} /\
      i_files stored = Some [].
Proof.
  do 3 eexists. split; [reflexivity|]. split; [reflexivity|].
  destruct (split_results_files Sample.E0 (new Sample.channel Sample.code_split)
              _ _ _ _ 0 _ eq_refl eq_refl eq_refl eq_refl Sample.E0)
    as (stored & Hr & Hf & _).
  exists stored. split; [exact Hr|exact Hf].
Defined.

(** X15, on the last of the two instances, in a channel whose client
    configures allowed mentions. *)
Lemma split_client_default_mentions_witness :
  exists this l m dm,
    split Sample.E0 (new Cases.configured_channel Sample.code_split) = OK (this, l) /\
    nth_error l 1 = Some m /\ data m = Some dm /\
    d_allowed_mentions dm
    = VObj [("parse", VArr [VStr "users"]); ("replied_user", VBool true)].
Proof.
  do 3 eexists.
  destruct (split_client_default_mentions Sample.E0 Cases.configured_channel
              Sample.code_split _ _ _ _ _ 1 _
              eq_refl eq_refl eq_refl eq_refl eq_refl eq_refl eq_refl)
    as (dm & Hdm & Ham).
  exists dm. split; [reflexivity|]. split; [reflexivity|]. split; [exact Hdm|exact Ham].
Defined.

(** X16, on options without files. *)
Lemma resolveFiles_edges_witness :
  exists stored,
    resolveFiles Sample.E0 (new Sample.channel Sample.hi)
    = {| settles_at := 0; outcome := OK stored |} /\
    i_files stored = Some [].
Proof.
  destruct (resolveFiles_edges Sample.E0 Sample.channel Sample.hi eq_refl) as (H & _).
  destruct (H eq_refl) as (stored & Hr & Hf & _).
  exists stored. split; [exact Hr|exact Hf].
Defined.


(** An avatar that does not resolve: nothing is posted. *)
Example createWebhook_missing_avatar :
  TextChannel.createWebhook Cases.api Cases.text_channel (VStr "Snek")
    (VObj [("avatar", VStr "missing.png")])
  = {| TextChannel.requests := [];
       TextChannel.response := {| settles_at := 3; outcome := Err (Failure "ENOENT") |} |}.
Proof.
  reflexivity.
Qed.

(** X18, on the three files of a webhook. *)
Lemma resolveData_resolveFiles_commute_witness :
  exists built resolved both,
    resolveData Sample.E0 (new Sample.webhook Sample.three_files) = OK built /\
    outcome (resolveFiles Sample.E0 (new Sample.webhook Sample.three_files))
    = OK resolved /\
    outcome (resolveFiles Sample.E0 built) = OK both /\
    resolveData Sample.E0 resolved = OK both.
Proof.
  do 2 eexists.
  destruct (resolveData_resolveFiles_commute Sample.E0
              (new Sample.webhook Sample.three_files) _ _ eq_refl eq_refl)
    as (both & H1 & _ & H2 & _).
  exists both. split; [reflexivity|]. split; [reflexivity|]. split; [exact H1|exact H2].
Defined.
